(** * Intel HEX editor: a shallow embedding of [intelhex_editor.py]

    The development follows the source file top-down:

    - [Py]: the Python built-ins the program calls ([int(s, 16)],
      [bytes.fromhex], slicing, [str.strip], [str.lstrip(chars)],
      [str.upper], the format specs [X], [02X], [04X], [sum],
      [int.from_bytes], [range], [sorted]);
    - [IntelHexFile]: the record of the class and its methods
      [parse_line], [load_file], [read_memory], [write_memory],
      [save_file], with exceptions made explicit;
    - the properties of the codec.

    Strings are lists of characters; a character is a code point in
    [0, 255] (Rocq's [ascii]).  Integers are unbounded, as in Python.
    A file is the list of its lines: [load_file] takes the lines it
    iterates over, [save_file] returns the lines it writes. *)

From Stdlib Require Import ZArith Ascii String List Lia.
From stdpp Require Import base tactics option list sorting strings gmap.

Local Open Scope Z_scope.

Abbreviation str := (list ascii).

(** ** Python built-ins *)
Module Py.

(** A string literal of the source. *)
Definition lit (s : string) : str := list_ascii_of_string s.

Definition code (c : ascii) : Z := Z.of_N (N_of_ascii c).

(** [str.isspace] on one character, for code points below 256: the set
    that [str.strip()] removes. *)
Definition isspace (c : ascii) : bool :=
  let n := code c in
  ((9 <=? n) && (n <=? 13)) || ((28 <=? n) && (n <=? 32))
  || (n =? 133) || (n =? 160).

(** The white space [int()] accepts around a literal: ASCII white
    space, and the Unicode spaces beyond ASCII, which CPython turns into
    blanks first.  The separators 28 to 31 are not among them. *)
Definition int_space (c : ascii) : bool :=
  let n := code c in
  ((9 <=? n) && (n <=? 13)) || (n =? 32) || (n =? 133) || (n =? 160).

(** ASCII white space, the characters [bytes.fromhex] skips. *)
Definition is_ascii_space (c : ascii) : bool :=
  let n := code c in
  ((9 <=? n) && (n <=? 13)) || (n =? 32).

(** Value of a hexadecimal digit, either case. *)
Definition digit_value (c : ascii) : option Z :=
  let n := code c in
  if (48 <=? n) && (n <=? 57) then Some (n - 48)
  else if (65 <=? n) && (n <=? 70) then Some (n - 55)
  else if (97 <=? n) && (n <=? 102) then Some (n - 87)
  else None.

Fixpoint drop_while {A} (p : A -> bool) (l : list A) : list A :=
  match l with
  | [] => []
  | x :: r => if p x then drop_while p r else l
  end.

(** [s.strip()] *)
Definition lstrip (s : str) : str := drop_while isspace s.
Definition rstrip (s : str) : str := rev (drop_while isspace (rev s)).
Definition strip (s : str) : str := rstrip (lstrip s).

(** [s.lstrip(chars)]: drops every leading character that occurs in
    [chars]. *)
Definition lstrip_chars (chars s : str) : str :=
  drop_while (fun c => existsb (Ascii.eqb c) chars) s.

(** [s.upper()], exact on ASCII strings, whose length it keeps.  Beyond
    ASCII it is not Python's: Python sends 224 to 254 (247 apart) to
    192 to 222, 181 and 255 to code points above 255, and 223 to the
    two characters ["SS"], so that the result can be longer than [s];
    here those code points are left as they are.  Neither they nor what
    Python makes of them is read by [int(_, 16)].  A statement about the
    value of [upper] is a statement about the source on ASCII strings
    only. *)
Definition upper_char (c : ascii) : ascii :=
  let n := code c in
  if (97 <=? n) && (n <=? 122) then ascii_of_N (Z.to_N (n - 32)) else c.
Definition upper (s : str) : str := map upper_char s.

(** [s.startswith(p)] *)
Fixpoint startswith (s p : str) {struct p} : bool :=
  match p, s with
  | [], _ => true
  | c :: p', d :: s' => Ascii.eqb c d && startswith s' p'
  | _ :: _, [] => false
  end.

(** Slicing [l[start:stop]] with Python's treatment of negative and
    out-of-range indices. *)
Definition clamp_index (len i : Z) : Z :=
  if i <? 0 then Z.max 0 (i + len) else Z.min i len.

Definition slice {A} (l : list A) (start stop : Z) : list A :=
  let len := Z.of_nat (length l) in
  let a := clamp_index len start in
  let b := clamp_index len stop in
  take (Z.to_nat (b - a)) (drop (Z.to_nat a) l).

(** [l[start:]] *)
Definition slice_from {A} (l : list A) (start : Z) : list A :=
  drop (Z.to_nat (clamp_index (Z.of_nat (length l)) start)) l.

(** The digit scan of [int(s, 16)]: hexadecimal digits with single
    underscores between them.  [prev] tells whether the previous
    character was an underscore; the result is the value, the number of
    digits and the unread rest. *)
Fixpoint scan_digits (s : str) (prev : bool) (acc : Z) (n : nat)
  : option (Z * nat * str) :=
  match s with
  | [] => if prev then None else Some (acc, n, [])
  | c :: r =>
      if Ascii.eqb c "_" then
        if prev then None else scan_digits r true acc n
      else
        match digit_value c with
        | Some d => scan_digits r false (16 * acc + d) (S n)
        | None => if prev then None else Some (acc, n, s)
        end
  end.

(** [int(s, 16)]; [None] stands for the [ValueError] it raises.  White
    space around the literal, a sign, a [0x] or [0X] prefix and single
    underscores are accepted, as CPython does. *)
Definition int16 (s : str) : option Z :=
  let s1 := drop_while int_space s in
  let '(sign, s2) :=
    match s1 with
    | c :: r => if Ascii.eqb c "+" then (1, r)
                else if Ascii.eqb c "-" then (-1, r) else (1, s1)
    | [] => (1, s1)
    end in
  let s3 :=
    match s2 with
    | c0 :: cx :: r =>
        if Ascii.eqb c0 "0" && (Ascii.eqb cx "x" || Ascii.eqb cx "X") then
          match r with
          | u :: r' => if Ascii.eqb u "_" then r' else r
          | [] => r
          end
        else s2
    | _ => s2
    end in
  match s3 with
  | u :: _ => if Ascii.eqb u "_" then None else
      match scan_digits s3 false 0 0 with
      | Some (v, n, rest) =>
          if (0 <? n)%nat && forallb int_space rest then Some (sign * v) else None
      | None => None
      end
  | [] => None
  end.

(** [bytes.fromhex(s)]: pairs of hexadecimal digits, ASCII white space
    skipped before a pair; [None] stands for its [ValueError]. *)
Fixpoint fromhex (s : str) : option (list Z) :=
  match s with
  | [] => Some []
  | c :: r =>
      if is_ascii_space c then fromhex r
      else
        match digit_value c, r with
        | Some hi, c2 :: r2 =>
            match digit_value c2 with
            | Some lo => cons (16 * hi + lo) <$> fromhex r2
            | None => None
            end
        | _, _ => None
        end
  end.

(** [sum(data)] *)
Definition sum (l : list Z) : Z := foldl Z.add 0 l.

(** [int.from_bytes(data, 'big')] *)
Definition from_bytes_big (l : list Z) : Z := foldl (fun acc b => 256 * acc + b) 0 l.

(** Upper-case digit for a value in [0, 15]. *)
Definition hexchar (d : Z) : ascii :=
  ascii_of_N (Z.to_N (if d <? 10 then 48 + d else 55 + d)).

(** Digits of a non-negative integer, most significant first; [fuel]
    bounds their number. *)
Fixpoint hex_digits (fuel : nat) (n : Z) : str :=
  match fuel with
  | O => []
  | S f => if n <? 16 then [hexchar n]
           else hex_digits f (n / 16) ++ [hexchar (n mod 16)]
  end.

(** [f"{x:X}"] and, with a width, [f"{x:02X}"], [f"{x:04X}"]: the sign
    first, then zeros up to the width, then the digits. *)
Definition format_X (width : nat) (x : Z) : str :=
  let digits := hex_digits (S (Z.to_nat (Z.log2 (Z.abs x)))) (Z.abs x) in
  let sign := if x <? 0 then ["-"%char] else [] in
  sign ++ repeat "0"%char (width - length sign - length digits) ++ digits.

(** [range(start, stop, step)] for a positive step. *)
Definition range3 (start stop step : Z) : list Z :=
  (fun k => start + step * k) <$> seqZ 0 ((stop - start + step - 1) / step).

(** [sorted(keys)] *)
Definition sorted (l : list Z) : list Z := merge_sort Z.le l.

End Py.

(** ** Exceptions and the two monads of the program *)

(** The exceptions the program can raise, one constructor per raising
    site.  All but the last two are [ValueError]s in the source. *)
Inductive exn : Type :=
  | InvalidLine                        (* ValueError("Invalid Intel HEX line") *)
  | ChecksumMismatch (expected computed : Z)
                                       (* ValueError(f"Checksum mismatch: ...") *)
  | InvalidLiteral                     (* ValueError raised by int(_, 16) *)
  | NonHexadecimal                     (* ValueError raised by bytes.fromhex *)
  | DataTypeError                      (* TypeError("Data must be str or int") *)
  | IndexError.                        (* addresses[0] on an empty list *)

(** The message of the exceptions the program raises itself. *)
Definition exn_message (e : exn) : option str :=
  match e with
  | InvalidLine => Some (Py.lit "Invalid Intel HEX line")
  | ChecksumMismatch expected computed =>
      Some (Py.lit "Checksum mismatch: expected " ++ Py.format_X 2 expected
            ++ Py.lit ", got " ++ Py.format_X 2 computed)
  | DataTypeError => Some (Py.lit "Data must be str or int")
  | _ => None
  end.

(** A computation that returns or raises. *)
Inductive outcome (A : Type) : Type :=
  | Ok (a : A)
  | Raise (e : exn).
Arguments Ok {A} a.
Arguments Raise {A} e.

#[global] Instance outcome_ret : MRet outcome := fun A a => Ok a.
#[global] Instance outcome_bind : MBind outcome := fun A B f m =>
  match m with
  | Ok a => f a
  | Raise e => Raise e
  end.

(** A built-in that raises [e] where the model returns [None]. *)
Definition or_raise {A} (e : exn) (o : option A) : outcome A :=
  match o with
  | Some a => Ok a
  | None => Raise e
  end.

(** ** The class [IntelHexFile] *)

(** [self.data] and [self.start_address]. *)
Record IntelHexFile : Type := mkIntelHexFile {
  data : gmap Z Z;
  start_address : option Z
}.

(** [IntelHexFile()] *)
Definition init : IntelHexFile := {| data := ∅; start_address := None |}.

(** A method: it reads and mutates [self] and returns or raises; the
    object is returned as the exception leaves it. *)
Definition method (A : Type) : Type := IntelHexFile -> IntelHexFile * outcome A.

#[global] Instance method_ret : MRet method := fun A a self => (self, Ok a).
#[global] Instance method_bind : MBind method := fun A B f m self =>
  match m self with
  | (self', Ok a) => f a self'
  | (self', Raise e) => (self', Raise e)
  end.

Definition raise {A} (e : exn) : method A := fun self => (self, Raise e).
Definition lift {A} (o : outcome A) : method A := fun self => (self, o).
Definition get_self : method IntelHexFile := fun self => (self, Ok self).

(** [self.data[key] = value] *)
Definition set_data (key value : Z) : method unit := fun self =>
  ({| data := <[key := value]> (data self); start_address := start_address self |},
   Ok tt).

(** [self.start_address = value] *)
Definition set_start_address (value : option Z) : method unit := fun self =>
  ({| data := data self; start_address := value |}, Ok tt).

(** [parse_line], in two steps: the five fields are cut out of the
    line and converted, then the checksum is validated. *)
Definition parse_fields (line : str) : outcome (Z * Z * Z * list Z * Z) :=
  if negb (Py.startswith line (Py.lit ":")) then Raise InvalidLine else
  let line := Py.slice_from line 1 in
  byte_count ← or_raise InvalidLiteral (Py.int16 (Py.slice line 0 2));
  address ← or_raise InvalidLiteral (Py.int16 (Py.slice line 2 6));
  record_type ← or_raise InvalidLiteral (Py.int16 (Py.slice line 6 8));
  data ← or_raise NonHexadecimal (Py.fromhex (Py.slice line 8 (8 + byte_count * 2)));
  checksum ← or_raise InvalidLiteral
    (Py.int16 (Py.slice line (8 + byte_count * 2) (10 + byte_count * 2)));
  mret (byte_count, address, record_type, data, checksum).

Definition parse_line (line : str) : outcome (Z * Z * list Z) :=
  '(byte_count, address, record_type, data, checksum) ← parse_fields line;
  let total := byte_count + (address ≫ 8) + (Z.land address 0xFF)
               + record_type + Py.sum data in
  let computed_checksum := Z.land (- total) 0xFF in
  if negb (computed_checksum =? checksum) then
    Raise (ChecksumMismatch checksum computed_checksum)
  else mret (record_type, address, data).

(** The inner loop of [load_file] and of [write_memory]:
    [for i, byte in enumerate(data): self.data[addr + i] = byte]. *)
Fixpoint store_bytes (addr i : Z) (bytes : list Z) : method unit :=
  match bytes with
  | [] => mret tt
  | byte :: rest => set_data (addr + i) byte ≫= fun _ => store_bytes addr (i + 1) rest
  end.

(** The loop of [load_file] over the lines of the file, with its locals
    [extended_address] and [first_data_address]; it returns the latter. *)
Fixpoint load_loop (lines : list str) (extended_address : Z)
    (first_data_address : option Z) : method (option Z) :=
  match lines with
  | [] => mret first_data_address
  | line :: rest =>
      let line := Py.strip line in
      match line with
      | [] => load_loop rest extended_address first_data_address
      | _ :: _ =>
          lift (parse_line line) ≫= fun '(record_type, address, data) =>
          if record_type =? 0x00 then
            let full_address := Z.lor extended_address address in
            let first_data_address :=
              match first_data_address with
              | None => Some full_address
              | Some _ => first_data_address
              end in
            store_bytes full_address 0 data ≫= fun _ =>
            load_loop rest extended_address first_data_address
          else if record_type =? 0x01 then mret first_data_address
          else if record_type =? 0x04 then
            load_loop rest (Py.from_bytes_big data ≪ 16) first_data_address
          else if record_type =? 0x05 then
            set_start_address (Some (Py.from_bytes_big data)) ≫= fun _ =>
            load_loop rest extended_address first_data_address
          else load_loop rest extended_address first_data_address
      end
  end.

(** [load_file], on the lines of the file at [filepath]. *)
Definition load_file (lines : list str) : method unit :=
  first_data_address ← load_loop lines 0 None;
  self ← get_self;
  match start_address self with
  | None => set_start_address first_data_address
  | Some _ => mret tt
  end.

(** An argument of type [HexLike = Union[str, int]]. *)
Inductive HexLike : Type :=
  | Str (s : str)
  | Int (n : Z).

(** [int(x, 16) if isinstance(x, str) else x] *)
Definition to_int (x : HexLike) : outcome Z :=
  match x with
  | Str s => or_raise InvalidLiteral (Py.int16 s)
  | Int n => Ok n
  end.

(** [read_memory] *)
Definition read_memory (address length : HexLike) : method str :=
  addr ← lift (to_int address);
  length ← lift (to_int length);
  self ← get_self;
  mret (concat ((fun i => Py.format_X 2 (default 0xFF (data self !! (addr + i))))
                <$> seqZ 0 length)).

(** The [data] argument of [write_memory]: a [str], an [int], or an
    object of another type. *)
Inductive pyval : Type :=
  | PStr (s : str)
  | PInt (n : Z)
  | POther.

(** [write_memory] *)
Definition write_memory (address : HexLike) (data : pyval) : method unit :=
  addr ← lift (to_int address);
  hex_str ← match data with
            | PInt n => mret (Py.format_X 0 n)
            | PStr s => mret (Py.upper (Py.lstrip_chars (Py.lit "0x") s))
            | POther => raise DataTypeError
            end;
  bytes_data ← lift (mapM (fun i => or_raise InvalidLiteral
                                      (Py.int16 (Py.slice hex_str i (i + 2))))
                          (Py.range3 0 (Z.of_nat (length hex_str)) 2));
  store_bytes addr 0 bytes_data.

Definition newline : ascii := ascii_of_N 10.

(** The loop of [save_file] over the chunk bases, with its local
    [current_ext_addr]; it returns the lines written, in order. *)
Fixpoint save_chunks (d : gmap Z Z) (bases : list Z) (current_ext_addr : option Z)
  : list str :=
  match bases with
  | [] => []
  | base :: rest =>
      let chunk := (fun i => default 0xFF (d !! (base + i))) <$> seqZ 0 32 in
      let linear_addr := base ≫ 16 in
      let changed := negb (bool_decide (Some linear_addr = current_ext_addr)) in
      let ext_record :=
        if changed then
          let high := Z.land linear_addr 0xFFFF in
          let checksum := Z.land (-2 - 4 - (high ≫ 8) - Z.land high 0xFF) 0xFF in
          [Py.lit ":02000004" ++ Py.format_X 4 high ++ Py.format_X 2 checksum
           ++ [newline]]
        else [] in
      let current_ext_addr := if changed then Some linear_addr else current_ext_addr in
      let addr_field := Py.format_X 4 (Z.land base 0xFFFF) in
      let data_field := concat (Py.format_X 2 <$> chunk) in
      let byte_count := Z.of_nat (length chunk) in
      let checksum := byte_count + (base ≫ 8) + Z.land base 0xFF + 0x00 + Py.sum chunk in
      let checksum := Z.land (- checksum) 0xFF in
      ext_record
      ++ [Py.lit ":" ++ Py.format_X 2 byte_count ++ addr_field ++ Py.lit "00"
          ++ data_field ++ Py.format_X 2 checksum ++ [newline]]
      ++ save_chunks d rest current_ext_addr
  end.

(** [save_file]: the lines written to the file at [filepath]. *)
Definition save_file : method (list str) :=
  self ← get_self;
  let addresses := Py.sorted (map_to_list (data self)).*1 in
  match addresses with
  | [] => raise IndexError
  | first :: _ =>
      mret (save_chunks (data self) (Py.range3 first (List.last addresses first + 1) 32) None
            ++ [Py.lit ":00000001FF" ++ [newline]])
  end.

(** ** Specification-level notions *)

(** A decoded record: type, 16-bit address field, payload. *)
Abbreviation record := (Z * Z * list Z)%type.

(** The checksum of a record as the format defines it: the two's
    complement of the sum of the count, the two bytes of the address,
    the type and the payload, modulo 256. *)
Definition record_checksum (count address type : Z) (payload : list Z) : Z :=
  (- (count + (address / 256) mod 256 + address mod 256 + type + Py.sum payload))
  mod 256.

(** The records [load_file] processes: every non-blank line decoded, up
    to and excluding the first End-Of-File record. *)
Fixpoint records_of (lines : list str) : outcome (list record) :=
  match lines with
  | [] => Ok []
  | line :: rest =>
      match Py.strip line with
      | [] => records_of rest
      | l =>
          r ← parse_line l;
          if r.1.1 =? 1 then Ok [] else rs ← records_of rest; mret (r :: rs)
      end
  end.

(** The extended offset in force after a sequence of records: 0 at
    first, replaced by each Extended Linear Address record. *)
Definition extended_offset (start : Z) (records : list record) : Z :=
  foldl (fun ext (r : record) =>
           if r.1.1 =? 4 then Py.from_bytes_big r.2 ≪ 16 else ext)
        start records.

(** The cells after writing [bytes] from [addr] on. *)
Fixpoint write_bytes (addr : Z) (bytes : list Z) (d : gmap Z Z) : gmap Z Z :=
  match bytes with
  | [] => d
  | b :: rest => write_bytes (addr + 1) rest (<[addr := b]> d)
  end.

(** All cells hold a byte. *)
Definition byte_cells (d : gmap Z Z) : Prop :=
  forall a v, d !! a = Some v -> 0 <= v < 256.

(** An upper-case hexadecimal digit. *)
Definition upper_hex_digit (c : ascii) : Prop :=
  exists d, 0 <= d < 16 /\ c = Py.hexchar d.

(** The locals and the object of [load_file] after one more record
    that is not an End-Of-File record. *)
Definition apply_record (st : Z * option Z * IntelHexFile) (r : record)
  : Z * option Z * IntelHexFile :=
  let '(ext, first, self) := st in
  let '(t, a, p) := r in
  if t =? 0 then
    (ext,
     match first with None => Some (Z.lor ext a) | Some _ => first end,
     {| data := write_bytes (Z.lor ext a) p (data self);
        start_address := start_address self |})
  else if t =? 4 then (Py.from_bytes_big p ≪ 16, first, self)
  else if t =? 5 then
    (ext, first, {| data := data self; start_address := Some (Py.from_bytes_big p) |})
  else st.

(** The value of a string of hexadecimal digits. *)
Definition hex_value (s : str) : Z :=
  foldl (fun acc c => 16 * acc + default 0 (Py.digit_value c)) 0 s.

(** The [k] low hexadecimal digits of [n], upper case, most significant
    first. *)
Fixpoint fixed_hex (k : nat) (n : Z) : str :=
  match k with
  | O => []
  | S k' => fixed_hex k' (n / 16) ++ [Py.hexchar (n mod 16)]
  end.

(** A hexadecimal digit, either case. *)
Definition hex_digit (c : ascii) : Prop := is_Some (Py.digit_value c).

(** The text of a record: the general form of the two lines
    [save_file] writes, with the checksum of the format. *)
Definition encode_record (type address : Z) (payload : list Z) : str :=
  let count := Z.of_nat (length payload) in
  Py.lit ":" ++ Py.format_X 2 count ++ Py.format_X 4 address ++ Py.format_X 2 type
  ++ concat (Py.format_X 2 <$> payload)
  ++ Py.format_X 2 (record_checksum count address type payload).

(** A list of bytes. *)
Definition bytes (l : list Z) : Prop := Forall (fun b => 0 <= b < 256) l.

(** The 32 bytes [save_file] reads from [base] on, 0xFF where no cell
    is populated. *)
Definition chunk (d : gmap Z Z) (base : Z) : list Z :=
  (fun i => default 255 (d !! (base + i))) <$> seqZ 0 32.

(** The cells after writing the chunks at [bases], in order. *)
Definition write_chunks_at (d : gmap Z Z) (bases : list Z) (m : gmap Z Z) : gmap Z Z :=
  foldl (fun m b => write_bytes b (chunk d b) m) m bases.

(** ** The class [HexEditor] and the files it opens *)

(** The files of the machine: a path holds the lines of its file.
    Opening a file for writing is taken to succeed. *)
Abbreviation files := (gmap string (list str)).

(** What a method of [HexEditor] can raise. *)
Inductive editor_exn : Type :=
  | FileNotFoundError                  (* open(filepath, 'r') of a missing file *)
  | FormatTypeError                    (* f'0x{None:08X}' *)
  | ParserError (e : exn).             (* raised inside [IntelHexFile] *)

Inductive result (A : Type) : Type :=
  | Return (a : A)
  | Fail (e : editor_exn).
Arguments Return {A} a.
Arguments Fail {A} e.

(** [self.file] and [self.parser]. *)
Record HexEditor : Type := mkHexEditor {
  file : string;
  parser : IntelHexFile
}.

(** [IntelHexFile.load_file(filepath)] with the file opened for
    reading. *)
Definition load_path (fs : files) (filepath : string) (self : IntelHexFile)
  : IntelHexFile * result unit :=
  match fs !! filepath with
  | None => (self, Fail FileNotFoundError)
  | Some lines =>
      match load_file lines self with
      | (self', Ok _) => (self', Return tt)
      | (self', Raise e) => (self', Fail (ParserError e))
      end
  end.

(** [IntelHexFile.save_file(filepath)] with the file opened for
    writing: [open] empties the file before the first line is
    written. *)
Definition save_path (fs : files) (filepath : string) (self : IntelHexFile)
  : files * IntelHexFile * result unit :=
  match save_file self with
  | (self', Ok lines) => (<[filepath := lines]> fs, self', Return tt)
  | (self', Raise e) => (<[filepath := []]> fs, self', Fail (ParserError e))
  end.

(** [HexEditor(file)]: [__post_init__] makes the parser and loads the
    file; the object exists only if the load returns. *)
Definition HexEditor_post_init (fs : files) (file : string) : result HexEditor :=
  match load_path fs file init with
  | (parser, Return _) => Return {| file := file; parser := parser |}
  | (_, Fail e) => Fail e
  end.

(** The property [start_address]. *)
Definition HexEditor_start_address (self : HexEditor) : result str :=
  match start_address (parser self) with
  | None => Fail FormatTypeError
  | Some a => Return (Py.lit "0x" ++ Py.format_X 8 a)
  end.

(** The property [length]: [max(addresses) - min(addresses) + 1], and 0
    for an image without cells. *)
Definition HexEditor_length (self : HexEditor) : Z :=
  match (map_to_list (data (parser self))).*1 with
  | [] => 0
  | a :: addresses =>
      foldl Z.max a addresses - foldl Z.min a addresses + 1
  end.

(** [read] *)
Definition HexEditor_read (self : HexEditor) (address length : HexLike)
  : HexEditor * outcome str :=
  let '(parser, r) := read_memory address length (parser self) in
  ({| file := file self; parser := parser |}, r).

(** [write]: the write, then the save to [output], or to [self.file]
    when [output] is [None]. *)
Definition HexEditor_write (fs : files) (self : HexEditor) (address : HexLike)
    (data : pyval) (output : option string) : files * HexEditor * result unit :=
  match write_memory address data (parser self) with
  | (parser, Raise e) =>
      (fs, {| file := file self; parser := parser |}, Fail (ParserError e))
  | (parser, Ok _) =>
      let '(fs', parser', r) :=
        save_path fs (match output with Some o => o | None => file self end) parser in
      (fs', {| file := file self; parser := parser' |}, r)
  end.


(** The number of lines that begin with [p]. *)
Definition count_prefix (p : str) (lines : list str) : nat :=
  length (List.filter (fun l => Py.startswith l p) lines).


(** ** Characters and digits *)

(** Case analysis on a built-in that may raise; what follows chooses
    which one. *)
Ltac case_or_raise :=
  multimatch goal with
  | |- context [or_raise _ ?o] => destruct o eqn:?; cbn
  end.

Lemma code_range (c : ascii) : 0 <= Py.code c < 256.
Proof.
  unfold Py.code. pose proof (N_ascii_bounded c) as H.
  split; [apply N2Z.is_nonneg|]. lia.
Qed.

Lemma code_inj (c d : ascii) : Py.code c = Py.code d -> c = d.
Proof.
  unfold Py.code. intros H%N2Z.inj.
  by rewrite <- (ascii_N_embedding c), <- (ascii_N_embedding d), H.
Qed.

Lemma eqb_code (c d : ascii) : Ascii.eqb c d = (Py.code c =? Py.code d).
Proof.
  destruct (Ascii.eqb_spec c d) as [->|Hne].
  - by rewrite Z.eqb_refl.
  - symmetry. apply Z.eqb_neq. intros H. by apply Hne, code_inj.
Qed.

Lemma code_hexchar (d : Z) :
  0 <= d < 16 -> Py.code (Py.hexchar d) = if d <? 10 then 48 + d else 55 + d.
Proof.
  intros Hd. unfold Py.code, Py.hexchar.
  rewrite N_ascii_embedding; [rewrite Z2N.id|]; destruct (d <? 10) eqn:E; lia.
Qed.

Lemma digit_value_hexchar (d : Z) :
  0 <= d < 16 -> Py.digit_value (Py.hexchar d) = Some d.
Proof.
  intros Hd. unfold Py.digit_value. rewrite code_hexchar by done.
  destruct (d <? 10) eqn:E.
  - replace ((48 <=? 48 + d) && (48 + d <=? 57)) with true by lia.
    f_equal. lia.
  - replace ((48 <=? 55 + d) && (55 + d <=? 57)) with false by lia.
    replace ((65 <=? 55 + d) && (55 + d <=? 70)) with true by lia.
    f_equal. lia.
Qed.

Lemma upper_hex_digit_hex_digit (c : ascii) : upper_hex_digit c -> hex_digit c.
Proof. intros (d & Hd & ->). unfold hex_digit. by rewrite digit_value_hexchar. Qed.

(** What a hexadecimal digit is not. *)
Lemma hex_digit_code (c : ascii) (v : Z) :
  Py.digit_value c = Some v ->
  0 <= v < 16 /\
  (48 <= Py.code c <= 57 \/ 65 <= Py.code c <= 70 \/ 97 <= Py.code c <= 102).
Proof.
  unfold Py.digit_value. intros H.
  repeat case_match; simplify_eq; lia.
Qed.

Section HexDigit.
Context (c : ascii) (Hc : hex_digit c).

Lemma hex_digit_range :
  48 <= Py.code c <= 57 \/ 65 <= Py.code c <= 70 \/ 97 <= Py.code c <= 102.
Proof using Hc. destruct Hc as [v Hv]. by destruct (hex_digit_code c v Hv). Qed.

Lemma hex_digit_not_space : Py.isspace c = false.
Proof using Hc. unfold Py.isspace. pose proof hex_digit_range. lia. Qed.

Lemma hex_digit_not_int_space : Py.int_space c = false.
Proof using Hc. unfold Py.int_space. pose proof hex_digit_range. lia. Qed.

Lemma hex_digit_not_ascii_space : Py.is_ascii_space c = false.
Proof using Hc. unfold Py.is_ascii_space. pose proof hex_digit_range. lia. Qed.

Lemma hex_digit_not (d : ascii) :
  Py.digit_value d = None -> Ascii.eqb c d = false.
Proof using Hc.
  intros Hd. rewrite eqb_code. apply Z.eqb_neq. intros E.
  unfold Py.digit_value in Hd. rewrite <- E in Hd. pose proof hex_digit_range.
  repeat case_match; simplify_eq; lia.
Qed.
End HexDigit.

(** ** [int(s, 16)] and [bytes.fromhex] on strings of digits *)

Lemma scan_digits_all (s : str) :
  Forall hex_digit s ->
  forall acc n,
    Py.scan_digits s false acc n =
      Some (foldl (fun acc c => 16 * acc + default 0 (Py.digit_value c)) acc s,
            (n + length s)%nat, []).
Proof.
  induction 1 as [|c s Hc Hs IH]; intros acc n; simpl.
  - by rewrite Nat.add_0_r.
  - rewrite (hex_digit_not c Hc "_") by reflexivity.
    destruct Hc as [v Hv]. rewrite Hv, IH. simpl.
    repeat f_equal. lia.
Qed.

Lemma int16_digits (s : str) :
  s <> [] -> Forall hex_digit s -> Py.int16 s = Some (hex_value s).
Proof.
  intros Hne Hs. destruct s as [|c r]; [done|].
  pose proof (Forall_inv Hs) as Hc.
  unfold Py.int16. cbn [Py.drop_while].
  rewrite (hex_digit_not_int_space c Hc).
  rewrite (hex_digit_not c Hc "+"), (hex_digit_not c Hc "-") by reflexivity.
  assert (match r with
          | cx :: r0 =>
              if Ascii.eqb c "0" && (Ascii.eqb cx "x" || Ascii.eqb cx "X")
              then match r0 with
                   | u :: r' => if Ascii.eqb u "_" then r' else r0
                   | [] => r0
                   end
              else c :: r
          | [] => c :: r
          end = c :: r) as ->.
  { destruct r as [|cx r0]; [done|].
    pose proof (Forall_inv (Forall_inv_tail Hs)) as Hx.
    rewrite (hex_digit_not cx Hx "x"), (hex_digit_not cx Hx "X") by reflexivity.
    by rewrite andb_false_r. }
  rewrite (hex_digit_not c Hc "_") by reflexivity.
  rewrite (scan_digits_all _ Hs). cbn [length Nat.add Nat.ltb Nat.leb forallb andb].
  unfold hex_value. f_equal. lia.
Qed.

Lemma fromhex_pair (c1 c2 : ascii) (v1 v2 : Z) (s : str) :
  Py.digit_value c1 = Some v1 -> Py.digit_value c2 = Some v2 ->
  Py.fromhex (c1 :: c2 :: s) = cons (16 * v1 + v2) <$> Py.fromhex s.
Proof.
  intros H1 H2. cbn [Py.fromhex].
  rewrite (hex_digit_not_ascii_space c1) by (by exists v1).
  by rewrite H1, H2.
Qed.

(** ** The format specs [02X] and [04X] *)

Lemma fixed_hex_zero (k : nat) : fixed_hex k 0 = repeat "0"%char k.
Proof.
  induction k as [|k IH]; [done|]. cbn [fixed_hex].
  change (0 / 16) with 0. rewrite IH. change (Py.hexchar (0 mod 16)) with "0"%char.
  by rewrite <- repeat_cons.
Qed.

Lemma length_fixed_hex (k : nat) (n : Z) : length (fixed_hex k n) = k.
Proof.
  revert n. induction k as [|k IH]; intros n; [done|].
  cbn [fixed_hex]. rewrite length_app, IH. simpl. lia.
Qed.

Lemma Forall_fixed_hex (k : nat) (n : Z) : Forall upper_hex_digit (fixed_hex k n).
Proof.
  revert n. induction k as [|k IH]; intros n; cbn [fixed_hex]; [constructor|].
  apply Forall_app. split; [apply IH|]. constructor; [|constructor].
  exists (n mod 16). split; [|done]. apply Z.mod_pos_bound. lia.
Qed.

(** With enough fuel, the digits padded to [k] places are the [k] low
    digits. *)
Lemma hex_digits_fixed (k : nat) :
  forall (f : nat) (n : Z),
    0 <= n < 16 ^ Z.of_nat k -> n < 16 ^ Z.of_nat (S f) -> (0 < k)%nat ->
    repeat "0"%char (k - length (Py.hex_digits (S f) n)) ++ Py.hex_digits (S f) n
    = fixed_hex k n.
Proof.
  induction k as [|k IH]; intros f n Hn Hf Hk; [lia|].
  cbn [Py.hex_digits fixed_hex]. destruct (n <? 16) eqn:E.
  - apply Z.ltb_lt in E. rewrite Z.div_small, Z.mod_small by lia.
    rewrite fixed_hex_zero. cbn [length]. by replace (S k - 1)%nat with k by lia.
  - apply Z.ltb_ge in E.
    rewrite Nat2Z.inj_succ, Z.pow_succ_r in Hn by lia.
    rewrite Nat2Z.inj_succ, Z.pow_succ_r in Hf by lia.
    assert (0 < k)%nat as Hk'.
    { destruct k; [|lia]. change (16 ^ Z.of_nat 0) with 1 in Hn. lia. }
    destruct f as [|f]; [change (16 ^ Z.of_nat 0) with 1 in Hf; lia|].
    rewrite length_app. cbn [length].
    replace (S k - (length (Py.hex_digits (S f) (n / 16)) + 1))%nat
      with (k - length (Py.hex_digits (S f) (n / 16)))%nat by lia.
    rewrite app_assoc. f_equal. apply IH; [| |done].
    + split; [apply Z.div_pos; lia|]. apply Z.div_lt_upper_bound; lia.
    + apply Z.div_lt_upper_bound; lia.
Qed.

Lemma format_X_fixed (k : nat) (n : Z) :
  (0 < k)%nat -> 0 <= n < 16 ^ Z.of_nat k -> Py.format_X k n = fixed_hex k n.
Proof.
  intros Hk Hn. unfold Py.format_X.
  replace (n <? 0) with false by lia. rewrite Z.abs_eq by lia.
  cbn [app length]. rewrite Nat.sub_0_r.
  apply hex_digits_fixed; [done| |done].
  destruct (decide (n = 0)) as [->|Hn0]; [by apply Z.pow_pos_nonneg; lia|].
  pose proof (Z.log2_spec n ltac:(lia)) as [_ Hlog].
  pose proof (Z.log2_nonneg n) as Hnn.
  rewrite Nat2Z.inj_succ, Z2Nat.id by done.
  eapply Z.lt_le_trans; [exact Hlog|].
  apply Z.pow_le_mono_l. lia.
Qed.

Lemma hex_value_snoc (s : str) (c : ascii) :
  hex_value (s ++ [c]) = 16 * hex_value s + default 0 (Py.digit_value c).
Proof. unfold hex_value. by rewrite foldl_app. Qed.

Lemma hex_value_fixed (k : nat) (n : Z) :
  0 <= n < 16 ^ Z.of_nat k -> hex_value (fixed_hex k n) = n.
Proof.
  revert n. induction k as [|k IH]; intros n Hn.
  - change (16 ^ Z.of_nat 0) with 1 in Hn. cbn. lia.
  - rewrite Nat2Z.inj_succ, Z.pow_succ_r in Hn by lia.
    cbn [fixed_hex]. rewrite hex_value_snoc, IH.
    + rewrite digit_value_hexchar by (apply Z.mod_pos_bound; lia).
      cbn [default from_option id]. Z.div_mod_to_equations. lia.
    + split; [apply Z.div_pos; lia|]. apply Z.div_lt_upper_bound; lia.
Qed.

(** [int(f"{n:0kX}", 16) == n] *)
Lemma int16_format_X (k : nat) (n : Z) :
  (0 < k)%nat -> 0 <= n < 16 ^ Z.of_nat k -> Py.int16 (Py.format_X k n) = Some n.
Proof.
  intros Hk Hn. rewrite format_X_fixed by done.
  rewrite int16_digits.
  - by rewrite hex_value_fixed.
  - intros E. pose proof (length_fixed_hex k n) as L. rewrite E in L. simpl in L. lia.
  - eapply Forall_impl; [apply Forall_fixed_hex|]. apply upper_hex_digit_hex_digit.
Qed.

Lemma format_02X (b : Z) :
  0 <= b < 256 -> Py.format_X 2 b = [Py.hexchar (b / 16); Py.hexchar (b mod 16)].
Proof.
  intros Hb. rewrite format_X_fixed by (done || lia). cbn [fixed_hex app].
  rewrite (Z.mod_small (b / 16)); [done|].
  split; [apply Z.div_pos; lia|]. apply Z.div_lt_upper_bound; lia.
Qed.

Lemma format_04X (n : Z) :
  0 <= n < 65536 ->
  Py.format_X 4 n = Py.format_X 2 (n / 256) ++ Py.format_X 2 (n mod 256).
Proof.
  intros Hn.
  assert (0 <= n / 256 < 256).
  { split; [apply Z.div_pos; lia|]. apply Z.div_lt_upper_bound; lia. }
  pose proof (Z.mod_pos_bound n 256 ltac:(lia)).
  rewrite !format_X_fixed by (done || lia). cbn [fixed_hex app].
  repeat (apply (f_equal2 cons); [apply (f_equal Py.hexchar)|]); try done.
  all: Z.div_mod_to_equations; lia.
Qed.

(** [bytes.fromhex] reads back what [02X] printed. *)
Lemma fromhex_format (l : list Z) :
  bytes l -> Py.fromhex (concat (Py.format_X 2 <$> l)) = Some l.
Proof.
  induction 1 as [|b l Hb Hl IH]; [done|].
  rewrite fmap_cons. cbn [concat]. rewrite format_02X by done. cbn [app].
  assert (0 <= b / 16 < 16).
  { split; [apply Z.div_pos; lia|]. apply Z.div_lt_upper_bound; lia. }
  pose proof (Z.mod_pos_bound b 16 ltac:(lia)).
  erewrite fromhex_pair; [|by apply digit_value_hexchar..].
  rewrite IH. cbn. f_equal. f_equal. Z.div_mod_to_equations. lia.
Qed.

Lemma length_format_02X (b : Z) : 0 <= b < 256 -> length (Py.format_X 2 b) = 2%nat.
Proof. intros Hb. by rewrite format_02X. Qed.

Lemma length_hex_bytes (l : list Z) :
  bytes l -> length (concat (Py.format_X 2 <$> l)) = (2 * length l)%nat.
Proof.
  induction 1 as [|b l Hb Hl IH]; [done|].
  rewrite fmap_cons. cbn [concat]. rewrite length_app, length_format_02X, IH by done.
  cbn [length]. lia.
Qed.

(** ** Slices *)

Lemma clamp_index_in (len i : Z) : 0 <= i <= len -> Py.clamp_index len i = i.
Proof. intros H. unfold Py.clamp_index. destruct (i <? 0) eqn:E; lia. Qed.

Lemma clamp_index_beyond (len i : Z) : 0 <= len <= i -> Py.clamp_index len i = len.
Proof. intros H. unfold Py.clamp_index. destruct (i <? 0) eqn:E; lia. Qed.

Lemma slice_middle {A} (pre mid post : list A) (start stop : Z) :
  start = Z.of_nat (length pre) ->
  stop = start + Z.of_nat (length mid) ->
  Py.slice (pre ++ mid ++ post) start stop = mid.
Proof.
  intros -> ->. unfold Py.slice.
  rewrite !clamp_index_in by (rewrite !length_app; lia).
  replace (Z.of_nat (length pre) + Z.of_nat (length mid) - Z.of_nat (length pre))
    with (Z.of_nat (length mid)) by lia.
  rewrite !Nat2Z.id. rewrite drop_app_length. by rewrite take_app_length.
Qed.

Lemma slice_beyond {A} (l : list A) (start stop : Z) :
  Z.of_nat (length l) <= start -> start <= stop -> Py.slice l start stop = [].
Proof.
  intros H1 H2. unfold Py.slice.
  rewrite !clamp_index_beyond by lia. by rewrite Z.sub_diag.
Qed.

(** ** The checksum *)

Lemma land_255 (x : Z) : Z.land x 255 = x mod 256.
Proof. change 255 with (Z.ones 8). by rewrite Z.land_ones by lia. Qed.

Lemma land_65535 (x : Z) : Z.land x 65535 = x mod 65536.
Proof. change 65535 with (Z.ones 16). by rewrite Z.land_ones by lia. Qed.

Lemma shiftr_8 (x : Z) : x ≫ 8 = x / 256.
Proof. by rewrite Z.shiftr_div_pow2 by lia. Qed.

Lemma shiftr_16 (x : Z) : x ≫ 16 = x / 65536.
Proof. by rewrite Z.shiftr_div_pow2 by lia. Qed.

(** The checksum [parse_line] computes is the checksum of the format. *)
Lemma computed_checksum_spec (count address type : Z) (payload : list Z) :
  Z.land (- (count + (address ≫ 8) + Z.land address 255 + type + Py.sum payload)) 255
  = record_checksum count address type payload.
Proof.
  unfold record_checksum. rewrite !land_255, shiftr_8.
  generalize (Py.sum payload). intros s.
  Z.div_mod_to_equations. lia.
Qed.

(** ** Decoding a well-formed line *)

Section Fields.
Context (fc fa ft fd fk : str).
Context (Lc : length fc = 2%nat) (La : length fa = 4%nat) (Lt : length ft = 2%nat).

Lemma slice_count : Py.slice (fc ++ fa ++ ft ++ fd ++ fk) 0 2 = fc.
Proof using Lc La Lt. apply (slice_middle [] fc); [done|]. rewrite Lc. lia. Qed.

Lemma slice_address : Py.slice (fc ++ fa ++ ft ++ fd ++ fk) 2 6 = fa.
Proof using Lc La Lt. apply slice_middle; lia. Qed.

Lemma slice_type : Py.slice (fc ++ fa ++ ft ++ fd ++ fk) 6 8 = ft.
Proof using Lc La Lt.
  rewrite (app_assoc fc fa). apply slice_middle; rewrite ?length_app; lia.
Qed.

Lemma slice_payload (count : Z) :
  Z.of_nat (length fd) = 2 * count ->
  Py.slice (fc ++ fa ++ ft ++ fd ++ fk) 8 (8 + count * 2) = fd.
Proof using Lc La Lt.
  intros Ld. rewrite (app_assoc fc fa), (app_assoc (fc ++ fa) ft).
  apply slice_middle; rewrite ?length_app; lia.
Qed.

Lemma slice_checksum (count : Z) :
  Z.of_nat (length fd) = 2 * count -> length fk = 2%nat ->
  Py.slice (fc ++ fa ++ ft ++ fd ++ fk) (8 + count * 2) (10 + count * 2) = fk.
Proof using Lc La Lt.
  intros Ld Lk.
  rewrite (app_assoc fc fa), (app_assoc (fc ++ fa) ft), (app_assoc _ fd).
  rewrite <- (app_nil_r fk) at 1.
  apply slice_middle; rewrite ?length_app; lia.
Qed.

(** A line made of five fields of the right widths decodes to their
    values. *)
Lemma parse_fields_fields (count address type checksum : Z) (payload : list Z) :
  Z.of_nat (length fd) = 2 * count -> length fk = 2%nat ->
  Py.int16 fc = Some count -> Py.int16 fa = Some address ->
  Py.int16 ft = Some type -> Py.fromhex fd = Some payload ->
  Py.int16 fk = Some checksum ->
  parse_fields (Py.lit ":" ++ fc ++ fa ++ ft ++ fd ++ fk)
  = Ok (count, address, type, payload, checksum).
Proof using Lc La Lt.
  intros Ld Lk Hc Ha Ht Hd Hk. unfold parse_fields.
  change (Py.lit ":") with [":"%char]. cbn [app].
  change (Py.startswith (_ :: _) _) with true. cbn [negb].
  assert (Py.slice_from (":"%char :: fc ++ fa ++ ft ++ fd ++ fk) 1
          = fc ++ fa ++ ft ++ fd ++ fk) as ->.
  { unfold Py.slice_from. rewrite clamp_index_in; [done|]. cbn [length]. lia. }
  rewrite slice_count, slice_address, slice_type, Hc, Ha, Ht. cbn.
  rewrite slice_payload, Hd by done. cbn.
  by rewrite slice_checksum, Hk by done.
Qed.
End Fields.

(** Decode inverts encode: [parse_line] reads back a record printed
    with the checksum of the format. *)
Lemma parse_line_encode (type address : Z) (payload : list Z) :
  0 <= type < 256 -> 0 <= address < 65536 ->
  bytes payload -> (length payload < 256)%nat ->
  parse_line (encode_record type address payload) = Ok (type, address, payload).
Proof.
  intros Ht Ha Hp Hlen. unfold parse_line, encode_record.
  set (count := Z.of_nat (length payload)).
  set (ck := record_checksum count address type payload).
  assert (0 <= ck < 256) as Hck by (apply Z.mod_pos_bound; lia).
  assert (0 <= count < 256) as Hcount by (unfold count; lia).
  assert (forall n, 0 <= n < 256 -> length (Py.format_X 2 n) = 2%nat) as L2.
  { intros n Hn. rewrite format_X_fixed by (done || lia). apply length_fixed_hex. }
  assert (forall n, 0 <= n < 256 -> Py.int16 (Py.format_X 2 n) = Some n) as I2.
  { intros n Hn. apply int16_format_X; [lia|]. by change (16 ^ Z.of_nat 2) with 256. }
  assert (parse_fields
            (Py.lit ":" ++ Py.format_X 2 count ++ Py.format_X 4 address
             ++ Py.format_X 2 type ++ concat (Py.format_X 2 <$> payload)
             ++ Py.format_X 2 ck)
          = Ok (count, address, type, payload, ck)) as ->.
  { apply parse_fields_fields; auto.
    - rewrite format_X_fixed by (done || lia). apply length_fixed_hex.
    - rewrite length_hex_bytes by done. lia.
    - apply int16_format_X; [lia|]. by change (16 ^ Z.of_nat 4) with 65536.
    - by apply fromhex_format. }
  cbn [mbind outcome_bind]. rewrite computed_checksum_spec. fold count ck.
  by rewrite Z.eqb_refl.
Qed.

(** ** The checks of [parse_line] *)

Lemma parse_fields_raise (line : str) (e : exn) :
  parse_fields line = Raise e ->
  e = InvalidLine \/ e = InvalidLiteral \/ e = NonHexadecimal.
Proof.
  unfold parse_fields. destruct (negb _); [naive_solver|].
  repeat case_or_raise; naive_solver.
Qed.

(** C2: on every line whose five fields decode, of whatever record
    type, [parse_line] recomputes the checksum of the format, the sum of
    count, address high byte, address low byte, type and payload
    negated modulo 256, and raises the checksum error, carrying the
    checksum read and the one computed, exactly when the two differ;
    when they agree the record is returned. *)
Theorem parse_line_checksum (line : str) :
  (forall expected computed,
     parse_line line = Raise (ChecksumMismatch expected computed) <->
     exists count address type payload,
       parse_fields line = Ok (count, address, type, payload, expected)
       /\ computed = record_checksum count address type payload
       /\ computed <> expected)
  /\ (forall count address type payload checksum,
        parse_fields line = Ok (count, address, type, payload, checksum) ->
        checksum = record_checksum count address type payload ->
        parse_line line = Ok (type, address, payload)).
Proof.
  unfold parse_line.
  destruct (parse_fields line) as [[[[[c a] t] p] k]|e] eqn:Hf;
    cbn [mbind outcome_bind].
  - rewrite computed_checksum_spec. split.
    + intros expected computed.
      destruct (Z.eqb_spec (record_checksum c a t p) k) as [E|E]; cbn [negb].
      * split; [done|]. intros (? & ? & ? & ? & [= <- <- <- <- <-] & -> & ?). done.
      * split.
        -- intros [= <- <-]. by exists c, a, t, p.
        -- by intros (? & ? & ? & ? & [= <- <- <- <- <-] & -> & ?).
    + intros ? ? ? ? ? [= <- <- <- <- <-] ->. by rewrite Z.eqb_refl.
  - split; [|done]. intros expected computed. split.
    + intros [= ->]. by destruct (parse_fields_raise _ _ Hf) as [?|[?|?]].
    + by intros (? & ? & ? & ? & ? & ? & ?).
Qed.

Lemma parse_line_checksum_witness :
  parse_line (Py.lit ":020000040001F8") = Raise (ChecksumMismatch 0xF8 0xF9)
  /\ parse_line (Py.lit ":020000040001F9") = Ok (4, 0, [0; 1]).
Proof.
  split.
  - apply (proj1 (parse_line_checksum (Py.lit ":020000040001F8"))).
    exists 2, 0, 4, [0; 1]. by vm_compute.
  - by apply (proj2 (parse_line_checksum (Py.lit ":020000040001F9")) 2 0 4 [0; 1] 0xF9).
Defined.

(** C3 as stated fails: the count of this line asks for one payload
    byte and a checksum byte, four characters, and three remain after
    the type field; the lone [F] is read as the checksum 0x0F, which
    matches, and the record is returned. *)
Lemma parse_line_one_digit_short :
  let line := Py.lit ":01000000F0F" in
  let body := Py.slice_from line 1 in
  Py.int16 (Py.slice body 0 2) = Some 1
  /\ Z.of_nat (length body) - 8 < 2 * 1 + 2
  /\ parse_line line = Ok (0, 0, [240]).
Proof. repeat split; reflexivity. Qed.

(** C3, amended: when the characters after the type field are at most
    the payload digits the count asks for, so that nothing is left for
    the checksum, [parse_line] raises and returns no record.  The error
    is the [ValueError] of [int] or of [bytes.fromhex]; the program has
    no error of its own for a truncated record. *)
Theorem parse_line_truncated (body : str) (count : Z) :
  Py.int16 (Py.slice body 0 2) = Some count ->
  0 <= count ->
  Z.of_nat (length body) - 8 <= 2 * count ->
  parse_line (":"%char :: body) = Raise InvalidLiteral
  \/ parse_line (":"%char :: body) = Raise NonHexadecimal.
Proof.
  intros Hc Hpos Hlen. unfold parse_line, parse_fields.
  change (Py.startswith (_ :: _) _) with true. cbn [negb].
  assert (Py.slice_from (":"%char :: body) 1 = body) as ->.
  { unfold Py.slice_from. rewrite clamp_index_in; [done|]. cbn [length]. lia. }
  rewrite Hc. cbn [or_raise mbind outcome_bind].
  destruct (Py.int16 (Py.slice body 2 6)); cbn; [|by left].
  destruct (Py.int16 (Py.slice body 6 8)); cbn; [|by left].
  destruct (Py.fromhex _); cbn; [|by right].
  rewrite slice_beyond by lia. by left.
Qed.

Lemma parse_line_truncated_witness :
  parse_line (Py.lit ":02000000AABB") = Raise InvalidLiteral
  \/ parse_line (Py.lit ":02000000AABB") = Raise NonHexadecimal.
Proof.
  apply (parse_line_truncated (Py.lit "02000000AABB") 2);
    [reflexivity | lia | cbn; lia].
Defined.

(** ** The loader, line by line *)

Lemma parse_line_nil : parse_line [] = Raise InvalidLine.
Proof. reflexivity. Qed.

Lemma store_bytes_write (addr i : Z) (bytes : list Z) (self : IntelHexFile) :
  store_bytes addr i bytes self =
    ({| data := write_bytes (addr + i) bytes (data self);
        start_address := start_address self |}, Ok tt).
Proof.
  revert i self. induction bytes as [|b bs IH]; intros i self; simpl.
  - by destruct self.
  - unfold mbind, method_bind, set_data. rewrite IH. simpl.
    by replace (addr + (i + 1)) with (addr + i + 1) by lia.
Qed.

Section LoadSteps.
Context (line : str) (rest : list str).
Context (ext : Z) (first : option Z) (self : IntelHexFile).

Lemma load_loop_blank :
  Py.strip line = [] ->
  load_loop (line :: rest) ext first self = load_loop rest ext first self.
Proof. intros H. simpl. by rewrite H. Qed.

Lemma load_loop_raise e :
  Py.strip line <> [] ->
  parse_line (Py.strip line) = Raise e ->
  load_loop (line :: rest) ext first self = (self, Raise e).
Proof.
  intros Hne H. simpl. destruct (Py.strip line) as [|c l] eqn:E.
  - done.
  - unfold mbind, method_bind, lift. by rewrite H.
Qed.

Lemma load_loop_eof a p :
  parse_line (Py.strip line) = Ok (1, a, p) ->
  load_loop (line :: rest) ext first self = (self, Ok first).
Proof.
  intros H. simpl. destruct (Py.strip line) as [|c l] eqn:E.
  - by rewrite parse_line_nil in H.
  - unfold mbind, method_bind, lift. by rewrite H.
Qed.

Lemma load_loop_record t a p :
  parse_line (Py.strip line) = Ok (t, a, p) ->
  t <> 1 ->
  load_loop (line :: rest) ext first self =
    let '(ext', first', self') := apply_record (ext, first, self) (t, a, p) in
    load_loop rest ext' first' self'.
Proof.
  intros H Ht. simpl. destruct (Py.strip line) as [|c l] eqn:E.
  - by rewrite parse_line_nil in H.
  - unfold mbind, method_bind, lift. rewrite H. simpl.
    destruct (t =? 0) eqn:E0.
    { rewrite store_bytes_write. by rewrite Z.add_0_r. }
    destruct (t =? 1) eqn:E1; [lia|].
    destruct (t =? 4); [done|]. by destruct (t =? 5).
Qed.
End LoadSteps.

(** [load_loop] runs [apply_record] over the records of the lines. *)
Lemma load_loop_records (lines : list str) (rs : list record) :
  records_of lines = Ok rs ->
  forall ext first self,
    load_loop lines ext first self =
      let '(_, first', self') := foldl apply_record (ext, first, self) rs in
      (self', Ok first').
Proof.
  revert rs. induction lines as [|line rest IH]; intros rs Hrs ext first self.
  - by inversion Hrs.
  - cbn [records_of] in Hrs. destruct (Py.strip line) as [|c l] eqn:E.
    + rewrite load_loop_blank by done. by apply IH.
    + destruct (parse_line (c :: l)) as [[[t a] p]|e] eqn:Hp; [|done].
      cbn in Hrs. destruct (t =? 1) eqn:E1.
      * apply Z.eqb_eq in E1 as ->. inversion Hrs; subst rs.
        erewrite load_loop_eof; [done|]. by rewrite E.
      * destruct (records_of rest) as [rs'|] eqn:Hrest; [|done].
        inversion Hrs; subst rs. clear Hrs.
        erewrite load_loop_record; [|by rewrite E|lia].
        destruct (apply_record (ext, first, self) (t, a, p)) as [[ext' first'] self'] eqn:Ha.
        rewrite (IH rs' eq_refl). cbn [foldl]. by rewrite Ha.
Qed.

(** A line that does not decode makes [load_loop] raise that error. *)
Lemma load_loop_records_raise (lines : list str) (e : exn) :
  records_of lines = Raise e ->
  forall ext first self, (load_loop lines ext first self).2 = Raise e.
Proof.
  induction lines as [|line rest IH]; intros Hrs ext first self.
  - done.
  - cbn [records_of] in Hrs. destruct (Py.strip line) as [|c l] eqn:E.
    + rewrite load_loop_blank by done. by apply IH.
    + destruct (parse_line (c :: l)) as [[[t a] p]|e'] eqn:Hp.
      * cbn in Hrs. destruct (t =? 1) eqn:E1; [done|].
        destruct (records_of rest) as [rs'|] eqn:Hrest; [done|].
        inversion Hrs; subst e. 
        erewrite load_loop_record; [|by rewrite E|lia].
        destruct (apply_record (ext, first, self) (t, a, p)) as [[ext' first'] self'].
        by apply IH.
      * inversion Hrs; subst e'.
        erewrite load_loop_raise; [done| |]; by rewrite E.
Qed.

(** ** End-Of-File stops the load *)

Lemma load_loop_eof_cut (line : str) (a : Z) (p : list Z) (post pre : list str) :
  parse_line (Py.strip line) = Ok (1, a, p) ->
  forall ext first self,
    load_loop (pre ++ line :: post) ext first self
    = load_loop (pre ++ [line]) ext first self.
Proof.
  intros Heof. induction pre as [|x pre IH]; intros ext first self.
  - cbn [app]. by rewrite !(load_loop_eof _ _ _ _ _ a p).
  - rewrite <- !app_comm_cons.
    destruct (Py.strip x) as [|c l] eqn:E.
    { rewrite !load_loop_blank by done. apply IH. }
    destruct (parse_line (Py.strip x)) as [[[t b] q]|e] eqn:Hp.
    + destruct (decide (t = 1)) as [->|Ht].
      * by rewrite !(load_loop_eof _ _ _ _ _ b q).
      * rewrite !(load_loop_record _ _ _ _ _ t b q) by done.
        destruct (apply_record _ _) as [[ext' first'] self']. apply IH.
    + rewrite !(load_loop_raise _ _ _ _ _ e); try done; by rewrite E.
Qed.

(** C7: a line that decodes to an End-Of-File record (type 1) ends the
    load: whatever lines follow it, well-formed or not, [load_file]
    returns or raises exactly as on the file cut after that line, and
    leaves the same image. *)
Theorem load_file_stops_at_eof (pre post : list str) (line : str)
    (address : Z) (payload : list Z) (self : IntelHexFile) :
  parse_line (Py.strip line) = Ok (1, address, payload) ->
  load_file (pre ++ line :: post) self = load_file (pre ++ [line]) self.
Proof.
  intros Heof. unfold load_file, mbind, method_bind.
  by rewrite (load_loop_eof_cut line address payload post pre Heof).
Qed.

Lemma load_file_stops_at_eof_witness :
  load_file ([Py.lit ":0100000011EE"] ++ Py.lit ":00000001FF" :: [Py.lit "garbage"; Py.lit ":00"]) init
  = load_file ([Py.lit ":0100000011EE"] ++ [Py.lit ":00000001FF"]) init.
Proof.
  apply (load_file_stops_at_eof _ _ _ 0 []). reflexivity.
Defined.

(** ** The loader over a sequence of records *)

Lemma lookup_write_bytes (bs : list Z) :
  forall (addr : Z) (d : gmap Z Z) (k : Z),
    write_bytes addr bs d !! k =
      if bool_decide (addr <= k < addr + Z.of_nat (length bs))
      then bs !! Z.to_nat (k - addr)
      else d !! k.
Proof.
  induction bs as [|b bs IH]; intros addr d k; cbn [write_bytes length].
  - by rewrite bool_decide_eq_false_2 by lia.
  - rewrite IH. case_bool_decide as H1; case_bool_decide as H2; try lia.
    + replace (Z.to_nat (k - addr)) with (S (Z.to_nat (k - (addr + 1)))) by lia.
      done.
    + assert (k = addr) as -> by lia. rewrite lookup_insert_eq.
      by rewrite Z.sub_diag.
    + rewrite lookup_insert_ne by lia. done.
Qed.

Lemma foldl_apply_record_ext (rs : list record) :
  forall ext first self,
    (foldl apply_record (ext, first, self) rs).1.1 = extended_offset ext rs.
Proof.
  unfold extended_offset.
  induction rs as [|[[t a] p] rs IH]; intros ext first self; [done|].
  cbn [foldl apply_record fst snd].
  destruct (t =? 0) eqn:E0.
  { rewrite IH. by replace (t =? 4) with false by lia. }
  destruct (t =? 4); [apply IH|]. destruct (t =? 5); apply IH.
Qed.

Lemma foldl_apply_record_first_some (rs : list record) :
  forall ext f self,
    (foldl apply_record (ext, Some f, self) rs).1.2 = Some f.
Proof.
  induction rs as [|[[t a] p] rs IH]; intros ext f self; [done|].
  cbn [foldl apply_record].
  destruct (t =? 0); [apply IH|].
  destruct (t =? 4); [apply IH|]. destruct (t =? 5); apply IH.
Qed.

Lemma foldl_apply_record_no_data (rs : list record) :
  Forall (fun r : record => r.1.1 <> 0) rs ->
  forall ext first self,
    (foldl apply_record (ext, first, self) rs).1.2 = first.
Proof.
  induction 1 as [|[[t a] p] rs Ht Hrs IH]; intros ext first self; [done|].
  cbn [foldl apply_record]. cbn in Ht.
  replace (t =? 0) with false by lia.
  destruct (t =? 4); [apply IH|]. destruct (t =? 5); apply IH.
Qed.

Lemma foldl_apply_record_no_start (rs : list record) :
  Forall (fun r : record => r.1.1 <> 5) rs ->
  forall ext first self,
    start_address (foldl apply_record (ext, first, self) rs).2 = start_address self.
Proof.
  induction 1 as [|[[t a] p] rs Ht Hrs IH]; intros ext first self; [done|].
  cbn [foldl apply_record]. cbn in Ht.
  destruct (t =? 0); [by rewrite IH|].
  destruct (t =? 4); [apply IH|]. replace (t =? 5) with false by lia. apply IH.
Qed.

(** [load_file] on lines that decode: the records are applied in order,
    and the entry point falls back to the first data address. *)
Lemma load_file_records (lines : list str) (rs : list record) (self : IntelHexFile) :
  records_of lines = Ok rs ->
  load_file lines self =
    let '(_, first, self') := foldl apply_record (0, None, self) rs in
    ({| data := data self';
        start_address := match start_address self' with
                         | None => first
                         | Some s => Some s
                         end |}, Ok tt).
Proof.
  intros Hrs. unfold load_file, mbind, method_bind.
  rewrite (load_loop_records lines rs Hrs).
  destruct (foldl apply_record (0, None, self) rs) as [[ext first] self'].
  unfold get_self. destruct self' as [d [s|]]; done.
Qed.

(** C5: when the last record [load_file] processes is a Data record,
    each byte of its payload sits at the base address plus its index,
    where the base is the bitwise OR of the record's address field with
    the extended offset in force: 0 at first, replaced by the payload
    of each Extended Linear Address record shifted left by 16.  So the
    Extended Linear Address record with payload 0001 followed by a Data
    record at 0x0010 puts that record's first byte at 0x00010010. *)
Theorem extended_address_accumulation :
  (forall (lines : list str) (pre : list record) (address : Z) (payload : list Z)
          (self : IntelHexFile),
     records_of lines = Ok (pre ++ [(0, address, payload)]) ->
     exists self',
       load_file lines self = (self', Ok tt)
       /\ forall (i : nat) (b : Z),
            payload !! i = Some b ->
            data self' !! (Z.lor (extended_offset 0 pre) address + Z.of_nat i) = Some b)
  /\ (exists self',
        load_file [Py.lit ":020000040001F9"; Py.lit ":01001000AA45"] init
        = (self', Ok tt)
        /\ data self' !! 0x00010010 = Some 0xAA
        /\ forall k, k <> 0x00010010 -> data self' !! k = None).
Proof.
  split.
  - intros lines pre address payload self Hrs.
    rewrite (load_file_records lines _ self Hrs), foldl_app.
    pose proof (foldl_apply_record_ext pre 0 None self) as Hext.
    destruct (foldl apply_record (0, None, self) pre) as [[ext first] self1].
    cbn [fst] in Hext. subst ext.
    cbn [foldl apply_record]. change (0 =? 0) with true. cbv iota beta.
    eexists. split; [reflexivity|]. intros i b Hb. cbn [data].
    rewrite lookup_write_bytes, bool_decide_eq_true_2.
    + by replace (Z.to_nat (_ + Z.of_nat i - _)) with i by lia.
    + apply lookup_lt_Some in Hb. lia.
  - exists {| data := {[0x00010010 := 0xAA]}; start_address := Some 0x00010010 |}.
    split; [reflexivity|]. split; [reflexivity|].
    intros k Hk. cbn [data]. by rewrite lookup_singleton_ne.
Qed.

Lemma extended_address_accumulation_witness :
  exists self',
    load_file [Py.lit ":020000040001F9"; Py.lit ":01001000AA45"] init = (self', Ok tt)
    /\ data self' !! (Z.lor (extended_offset 0 [(4, 0, [0; 1])]) 0x0010 + Z.of_nat 0)
       = Some 0xAA.
Proof.
  destruct (proj1 extended_address_accumulation
              [Py.lit ":020000040001F9"; Py.lit ":01001000AA45"]
              [(4, 0, [0; 1])] 0x0010 [0xAA] init eq_refl) as (self' & Hload & Hbytes).
  exists self'. split; [exact Hload|]. by apply Hbytes.
Defined.

(** ** The entry point *)

(** C4: after a load into an image without entry point, if no Start
    Linear Address record was processed, the entry point is the base
    address of the first Data record in file order, its address field
    OR-ed with the extended offset in force there; if one was, the
    entry point is the payload of the last of them. *)
Theorem load_file_entry_point (lines : list str) (rs : list record)
    (self : IntelHexFile) :
  records_of lines = Ok rs -> start_address self = None ->
  exists self',
    load_file lines self = (self', Ok tt)
    /\ (forall pre address payload post,
          rs = pre ++ (0, address, payload) :: post ->
          Forall (fun r : record => r.1.1 <> 0) pre ->
          Forall (fun r : record => r.1.1 <> 5) rs ->
          start_address self' = Some (Z.lor (extended_offset 0 pre) address))
    /\ (forall pre address payload post,
          rs = pre ++ (5, address, payload) :: post ->
          Forall (fun r : record => r.1.1 <> 5) post ->
          start_address self' = Some (Py.from_bytes_big payload)).
Proof.
  intros Hrs Hnone. rewrite (load_file_records lines rs self Hrs).
  destruct (foldl apply_record (0, None, self) rs) as [[ext first] self'] eqn:Hfold.
  eexists. split; [reflexivity|]. cbn [start_address]. split.
  - intros pre address payload post -> Hpre Hno5.
    pose proof (foldl_apply_record_no_start _ Hno5 0 None self) as Hs.
    rewrite Hfold in Hs. cbn [snd] in Hs. rewrite Hs, Hnone.
    rewrite foldl_app in Hfold.
    pose proof (foldl_apply_record_ext pre 0 None self) as Hext.
    pose proof (foldl_apply_record_no_data pre Hpre 0 None self) as Hfirst.
    destruct (foldl apply_record (0, None, self) pre) as [[ext1 first1] self1].
    cbn [fst snd] in Hext, Hfirst. subst ext1 first1.
    cbn [foldl apply_record] in Hfold. change (0 =? 0) with true in Hfold.
    cbv iota beta in Hfold.
    apply (f_equal (fun st => st.1.2)) in Hfold.
    rewrite foldl_apply_record_first_some in Hfold. by cbn in Hfold.
  - intros pre address payload post -> Hpost.
    rewrite foldl_app in Hfold.
    destruct (foldl apply_record (0, None, self) pre) as [[ext1 first1] self1].
    cbn [foldl apply_record] in Hfold. change (5 =? 0) with false in Hfold.
    change (5 =? 4) with false in Hfold. change (5 =? 5) with true in Hfold.
    cbv iota beta in Hfold.
    pose proof (foldl_apply_record_no_start _ Hpost ext1 first1
                  {| data := data self1;
                     start_address := Some (Py.from_bytes_big payload) |}) as Hs.
    rewrite Hfold in Hs. cbn [snd start_address] in Hs. by rewrite Hs.
Qed.

Lemma load_file_entry_point_witness :
  exists self',
    load_file [Py.lit ":020000040001F9"; Py.lit ":01010000AA54";
               Py.lit ":01000000BB44"; Py.lit ":00000001FF"] init
    = (self', Ok tt)
    /\ start_address self' = Some 0x00010100.
Proof.
  destruct (load_file_entry_point
              [Py.lit ":020000040001F9"; Py.lit ":01010000AA54";
               Py.lit ":01000000BB44"; Py.lit ":00000001FF"]
              [(4, 0, [0; 1]); (0, 256, [170]); (0, 0, [187])] init
              eq_refl eq_refl) as (self' & Hload & Hdata & _).
  exists self'. split; [exact Hload|].
  apply (Hdata [(4, 0, [0; 1])] 256 [170] [(0, 0, [187])] eq_refl).
  - repeat constructor; cbn; lia.
  - repeat constructor; cbn; lia.
Defined.

(** The fallback is the first data address in file order, not the
    lowest populated one: here the first Data record is at 0x0100 and
    the second at 0x0000. *)
Example entry_point_not_lowest :
  let self' := (load_file [Py.lit ":01010000AA54"; Py.lit ":01000000BB44";
                           Py.lit ":00000001FF"] init).1 in
  start_address self' = Some 0x100 /\ data self' !! 0 = Some 0xBB.
Proof. split; reflexivity. Qed.

(** ** Reads *)

Lemma Forall_upper_hex_bytes (l : list Z) :
  bytes l -> Forall upper_hex_digit (concat (Py.format_X 2 <$> l)).
Proof.
  induction 1 as [|b l Hb Hl IH]; [constructor|].
  rewrite fmap_cons. cbn [concat]. apply Forall_app. split; [|done].
  rewrite format_X_fixed by (done || lia). apply Forall_fixed_hex.
Qed.

(** C6 as stated fails.  The address and the length may be strings, and
    one that [int(_, 16)] does not read makes [read_memory] raise its
    [ValueError]: [read_memory('zz', 1)] on the empty image.  Nor is
    every cell printed as two digits: [write_memory(0, '-1')] returns
    and stores -1 at 0, which [read_memory(0, 1)] prints as ["-1"]. *)
Lemma read_memory_raises_on_bad_literal :
  let self := {| data := {[0 := -1]}; start_address := None |} in
  Py.int16 (Py.lit "zz") = None
  /\ read_memory (Str (Py.lit "zz")) (Int 1) init = (init, Raise InvalidLiteral)
  /\ write_memory (Int 0) (PStr (Py.lit "-1")) init = (self, Ok tt)
  /\ read_memory (Int 0) (Int 1) self = (self, Ok (Py.lit "-1"))
  /\ ~ Forall upper_hex_digit (Py.lit "-1").
Proof.
  split; [reflexivity|]. split; [reflexivity|]. split; [reflexivity|].
  split; [reflexivity|].
  intros H. apply Forall_cons_1 in H as [H _].
  apply upper_hex_digit_hex_digit in H. by destruct H as [v H].
Qed.

(** C6, amended: [read_memory] leaves the image as it is, and the one
    error it raises is the [ValueError] of [int(_, 16)], exactly when
    the address or the length is a string that is not a hexadecimal
    literal.  For an address and a length given as integers, or as
    strings that [int(_, 16)] reads, it returns, and yields one byte per
    position of the range: the stored byte where the cell is populated,
    0xFF where it is not.  Each is printed with [02X]; when the cells of
    the image hold bytes that is two upper-case hexadecimal digits per
    byte, which [bytes.fromhex] reads back. *)
Theorem read_memory_fill (address len : HexLike) (self : IntelHexFile) :
  (read_memory address len self).1 = self
  /\ (forall e, (read_memory address len self).2 = Raise e
                <-> e = InvalidLiteral
                    /\ exists s, (address = Str s \/ len = Str s)
                                 /\ Py.int16 s = None)
  /\ (forall a n,
        to_int address = Ok a -> to_int len = Ok n ->
        exists (out : str) (bs : list Z),
          read_memory address len self = (self, Ok out)
          /\ length bs = Z.to_nat n
          /\ (forall i, 0 <= i < n ->
                bs !! Z.to_nat i = Some (match data self !! (a + i) with
                                         | Some v => v
                                         | None => 0xFF
                                         end))
          /\ out = concat (Py.format_X 2 <$> bs)
          /\ (byte_cells (data self) ->
              length out = (2 * length bs)%nat
              /\ Forall upper_hex_digit out
              /\ Py.fromhex out = Some bs)).
Proof.
  split; [|split].
  - unfold read_memory, mbind, method_bind, lift, get_self.
    destruct (to_int address) as [a|e1]; [|done].
    by destruct (to_int len) as [n|e2].
  - intros e. unfold read_memory, mbind, method_bind, lift, get_self.
    destruct address as [s|a]; destruct len as [t|n]; cbn [to_int or_raise].
    + destruct (Py.int16 s) as [a|] eqn:Hs; cbn [or_raise snd].
      * destruct (Py.int16 t) as [n|] eqn:Ht; cbn [or_raise snd mret method_ret].
        -- split; [done|]. intros [_ (u & [[= <-]|[= <-]] & Hu)]; congruence.
        -- split; [|by intros [-> _]]. intros [= <-]. split; [done|]. eauto.
      * split; [|by intros [-> _]]. intros [= <-]. split; [done|]. eauto.
    + destruct (Py.int16 s) as [a|] eqn:Hs; cbn [or_raise snd mret method_ret].
      * split; [done|]. intros [_ (u & [[= <-]|[=]] & Hu)]. congruence.
      * split; [|by intros [-> _]]. intros [= <-]. split; [done|]. eauto.
    + destruct (Py.int16 t) as [n|] eqn:Ht; cbn [or_raise snd mret method_ret].
      * split; [done|]. intros [_ (u & [[=]|[= <-]] & Hu)]. congruence.
      * split; [|by intros [-> _]]. intros [= <-]. split; [done|]. eauto.
    + cbn [snd mret method_ret]. split; [done|].
      by intros [_ (u & [[=]|[=]] & _)].
  - intros a n Ha Hn.
    set (bs := (fun i => default 255 (data self !! (a + i))) <$> seqZ 0 n).
    exists (concat (Py.format_X 2 <$> bs)), bs.
    split; [|split; [|split; [|split; [done|]]]].
    + unfold read_memory, mbind, method_bind, lift, get_self. rewrite Ha, Hn.
      cbn [mret method_ret]. unfold bs. by rewrite <- list_fmap_compose.
    + unfold bs. by rewrite length_fmap, length_seqZ.
    + intros i Hi. unfold bs. rewrite list_lookup_fmap, lookup_seqZ_lt by lia.
      rewrite Z.add_0_l, Z2Nat.id by lia. cbn. by destruct (data self !! (a + i)).
    + intros Hcells.
      assert (bytes bs) as Hbs.
      { unfold bytes, bs. apply Forall_fmap, Forall_forall. intros i _. cbn.
        destruct (data self !! (a + i)) as [v|] eqn:E; cbn; [by eapply Hcells|lia]. }
      split; [by apply length_hex_bytes|].
      split; [by apply Forall_upper_hex_bytes|by apply fromhex_format].
Qed.

Lemma read_memory_fill_witness :
  exists (out : str) (bs : list Z),
    read_memory (Str (Py.lit "0x10")) (Int 3)
      {| data := {[17 := 0xAB]}; start_address := None |}
    = ({| data := {[17 := 0xAB]}; start_address := None |}, Ok out)
    /\ bs = [0xFF; 0xAB; 0xFF]
    /\ out = Py.lit "FFABFF"
    /\ Py.fromhex out = Some bs.
Proof.
  destruct (proj2 (proj2 (read_memory_fill (Str (Py.lit "0x10")) (Int 3)
                            {| data := {[17 := 0xAB]}; start_address := None |}))
              16 3 eq_refl eq_refl)
    as (out & bs & Hread & Hlen & Hbs & Hout & Hbytes).
  assert (bs = [0xFF; 0xAB; 0xFF]) as ->.
  { destruct bs as [|b0 [|b1 [|b2 [|? ?]]]]; try discriminate Hlen.
    pose proof (Hbs 0 ltac:(lia)) as H0. pose proof (Hbs 1 ltac:(lia)) as H1.
    pose proof (Hbs 2 ltac:(lia)) as H2. vm_compute in H0, H1, H2. congruence. }
  exists out, [0xFF; 0xAB; 0xFF]. subst out.
  split; [exact Hread|]. split; [done|]. split; [done|].
  apply Hbytes. intros k v Hk. cbn [data] in Hk.
  apply lookup_singleton_Some in Hk as [_ <-]. lia.
Defined.

(** ** Writes *)

(** C9: [write_memory] raises before it stores anything.  A value that
    is neither a [str] nor an [int] raises the [TypeError] and leaves
    the object as it was; and whatever the arguments, when
    [write_memory] raises (a value or an address that is not a
    hexadecimal literal included), no cell has been written. *)
Theorem write_memory_raises_before_writing (address : HexLike) (self : IntelHexFile) :
  (forall a, to_int address = Ok a ->
     write_memory address POther self = (self, Raise DataTypeError))
  /\ (forall value e,
        (write_memory address value self).2 = Raise e ->
        (write_memory address value self).1 = self).
Proof.
  split.
  - intros a Ha. unfold write_memory, mbind, method_bind, lift. by rewrite Ha.
  - intros value e. unfold write_memory, mbind, method_bind, lift, raise.
    destruct (to_int address) as [a|e1]; [|done].
    destruct value as [s|n|]; cbn [mret method_ret]; [| |done].
    + destruct (mapM _ _) as [bs|e2]; [|done].
      by rewrite store_bytes_write.
    + destruct (mapM _ _) as [bs|e2]; [|done].
      by rewrite store_bytes_write.
Qed.

Lemma write_memory_raises_before_writing_witness :
  (write_memory (Int 0) (PStr (Py.lit "12G4")) init).2 = Raise InvalidLiteral
  /\ (write_memory (Int 0) (PStr (Py.lit "12G4")) init).1 = init.
Proof.
  split; [reflexivity|].
  apply (proj2 (write_memory_raises_before_writing (Int 0) init)
           (PStr (Py.lit "12G4")) InvalidLiteral).
  reflexivity.
Defined.

(** C8, on the code: an integer with an odd number of hexadecimal
    digits is not padded.  [write_memory(0, 0xABC)] formats ["ABC"],
    cuts it into ["AB"] and ["C"], and stores 0xAB at 0 and 0x0C at 1,
    where padding to ["0ABC"] would store 0x0A and 0xBC. *)
Theorem write_memory_int_odd_digits :
  Py.format_X 0 2748 = Py.lit "ABC"
  /\ write_memory (Int 0) (PInt 2748) init
     = ({| data := {[0 := 171; 1 := 12]}; start_address := None |}, Ok tt)
  /\ Py.fromhex (Py.lit "0ABC") = Some [10; 188].
Proof. repeat split; reflexivity. Qed.

(** ** Writing a string *)

Lemma digit_value_upper_char (c : ascii) :
  Py.digit_value (Py.upper_char c) = Py.digit_value c.
Proof.
  unfold Py.upper_char.
  destruct ((97 <=? Py.code c) && (Py.code c <=? 122)) eqn:E; [|done].
  unfold Py.digit_value at 1 2.
  assert (Py.code (ascii_of_N (Z.to_N (Py.code c - 32))) = Py.code c - 32) as ->.
  { unfold Py.code at 1. rewrite N_ascii_embedding; lia. }
  repeat case_match; try lia; f_equal; lia.
Qed.

Lemma Forall_hex_digit_upper (s : str) :
  Forall hex_digit s -> Forall hex_digit (Py.upper s).
Proof.
  intros H. apply Forall_fmap. eapply Forall_impl; [exact H|].
  intros c Hc. unfold hex_digit, compose. by rewrite digit_value_upper_char.
Qed.

Lemma list_pair_ind {A} (P : list A -> Prop) :
  P [] -> (forall x, P [x]) -> (forall x y l, P l -> P (x :: y :: l)) ->
  forall l, P l.
Proof.
  intros H0 H1 H2 l. cut (P l /\ forall x, P (x :: l)); [tauto|].
  induction l as [|y l [IH1 IH2]]; split; auto.
Qed.

Lemma fromhex_upper (s : str) :
  Forall hex_digit s -> Py.fromhex (Py.upper s) = Py.fromhex s.
Proof.
  induction s as [|c1|c1 c2 s IH] using list_pair_ind; intros Hs; [done|..].
  - apply Forall_cons_1 in Hs as [[v1 H1] _].
    cbn. rewrite digit_value_upper_char.
    rewrite !hex_digit_not_ascii_space; [done|by exists v1|].
    exists v1. by rewrite digit_value_upper_char.
  - apply Forall_cons_1 in Hs as [[v1 H1] Hs].
    apply Forall_cons_1 in Hs as [[v2 H2] Hs].
    change (Py.upper (c1 :: c2 :: s))
      with (Py.upper_char c1 :: Py.upper_char c2 :: Py.upper s).
    rewrite (fromhex_pair _ _ v1 v2), (fromhex_pair c1 c2 v1 v2);
      rewrite ?digit_value_upper_char; try done.
    by rewrite IH.
Qed.

(** A string of digits that [bytes.fromhex] reads is a list of pairs. *)
Lemma fromhex_digits_cons (s : str) (b : Z) (bs : list Z) :
  Forall hex_digit s -> Py.fromhex s = Some (b :: bs) ->
  exists c1 c2 s',
    s = c1 :: c2 :: s' /\ hex_value [c1; c2] = b
    /\ Forall hex_digit s' /\ Py.fromhex s' = Some bs.
Proof.
  intros Hs Hb. destruct Hs as [|c1 s [v1 H1] Hs]; [done|].
  destruct Hs as [|c2 s [v2 H2] Hs].
  - cbn in Hb. rewrite hex_digit_not_ascii_space, H1 in Hb; [done|by exists v1].
  - rewrite (fromhex_pair c1 c2 v1 v2) in Hb by done.
    destruct (Py.fromhex s) as [bs'|] eqn:E; [|done]. cbn in Hb.
    injection Hb as <- <-.
    exists c1, c2, s. repeat split; [|done..].
    unfold hex_value. cbn [foldl]. rewrite H1, H2. cbn [default from_option id]. lia.
Qed.

Lemma fromhex_digits_nil (s : str) :
  Forall hex_digit s -> Py.fromhex s = Some [] -> s = [].
Proof.
  intros Hs Hb. destruct Hs as [|c1 s [v1 H1] Hs]; [done|].
  destruct Hs as [|c2 s [v2 H2] Hs].
  - cbn in Hb. rewrite hex_digit_not_ascii_space, H1 in Hb; [done|by exists v1].
  - rewrite (fromhex_pair c1 c2 v1 v2) in Hb by done.
    by destruct (Py.fromhex s).
Qed.

Lemma fromhex_digits_length (bs : list Z) :
  forall s, Forall hex_digit s -> Py.fromhex s = Some bs ->
            length s = (2 * length bs)%nat.
Proof.
  induction bs as [|b bs IH]; intros s Hs Hb.
  - by rewrite (fromhex_digits_nil s Hs Hb).
  - destruct (fromhex_digits_cons s b bs Hs Hb) as (c1 & c2 & s' & -> & _ & Hs' & Hb').
    cbn [length]. rewrite (IH s' Hs' Hb'). lia.
Qed.

(** The list comprehension of [write_memory], two characters at a time
    from offset [2 * k] on. *)
Lemma write_chunks (bs : list Z) :
  forall (pre s : str) (k : Z),
    Forall hex_digit s -> Py.fromhex s = Some bs ->
    Z.of_nat (length pre) = 2 * k ->
    mapM (fun i => or_raise InvalidLiteral
                     (Py.int16 (Py.slice (pre ++ s) i (i + 2))))
         ((fun j => 0 + 2 * j) <$> seqZ k (Z.of_nat (length bs)))
    = Ok bs.
Proof.
  induction bs as [|b bs IH]; intros pre s k Hs Hb Hpre; [done|].
  destruct (fromhex_digits_cons s b bs Hs Hb) as (c1 & c2 & s' & -> & Hv & Hs' & Hb').
  cbn [length]. rewrite Nat2Z.inj_succ, seqZ_cons by lia.
  rewrite fmap_cons. cbn [mapM].
  rewrite (slice_middle pre [c1; c2] s') by (cbn [length]; lia).
  rewrite int16_digits; [|done|].
  2:{ by repeat (apply Forall_cons_1 in Hs as [? Hs]; constructor; [done|]). }
  rewrite Hv. cbn [or_raise mbind outcome_bind].
  replace (Z.pred (Z.succ (Z.of_nat (length bs)))) with (Z.of_nat (length bs)) by lia.
  replace (pre ++ c1 :: c2 :: s') with ((pre ++ [c1; c2]) ++ s')
    by (by rewrite <- app_assoc).
  rewrite (IH (pre ++ [c1; c2]) s' (Z.succ k)); [done|done|done|].
  rewrite length_app. cbn [length]. lia.
Qed.

Lemma lstrip_chars_0x (pre rest : str) :
  Forall (fun c => c = "0"%char \/ c = "x"%char) pre ->
  Forall hex_digit rest -> head rest <> Some "0"%char ->
  Py.lstrip_chars (Py.lit "0x") (pre ++ rest) = rest.
Proof.
  intros Hpre Hrest Hhead. unfold Py.lstrip_chars.
  induction Hpre as [|c pre [->| ->] Hpre IH]; [|done..].
  destruct Hrest as [|c rest Hc Hrest]; [done|]. cbn.
  rewrite (hex_digit_not c Hc "x") by reflexivity.
  destruct (Ascii.eqb_spec c "0") as [->|_]; [done|]. done.
Qed.

Lemma int16_X (t : str) : Py.int16 ("X"%char :: t) = None.
Proof. by destruct t. Qed.

(** C10 as stated fails where the first byte after the zero bytes has
    a zero high digit: of ["000A0B"], the bytes 00 0A 0B, the strip
    removes the three zeros, and the bytes written are 0xA0 and 0x0B,
    not the remaining bytes 0x0A and 0x0B. *)
Lemma write_memory_strips_zero_digit :
  Py.fromhex (Py.lit "000A0B") = Some [0; 10; 11]
  /\ Py.lstrip_chars (Py.lit "0x") (Py.lit "000A0B") = Py.lit "A0B"
  /\ write_memory (Int 0) (PStr (Py.lit "000A0B")) init
     = ({| data := {[0 := 0xA0; 1 := 0x0B]}; start_address := None |}, Ok tt).
Proof. repeat split; reflexivity. Qed.

(** C10, amended: [write_memory] strips from a string value every
    leading character that is ['0'] or ['x'], not an exact ["0x"]
    prefix.  For a string made of such characters followed by pairs of
    hexadecimal digits that do not begin with ['0'], the bytes written,
    from [address] on, are those of the pairs alone: leading zero bytes
    are dropped.  A string that begins with ["0X"] loses its ['0'] only,
    and the write raises on the ['X'] left in front. *)
Theorem write_memory_lstrip (address : Z) (self : IntelHexFile) :
  (forall (pre rest : str) (bs : list Z),
     Forall (fun c => c = "0"%char \/ c = "x"%char) pre ->
     Forall hex_digit rest -> head rest <> Some "0"%char ->
     Py.fromhex rest = Some bs ->
     write_memory (Int address) (PStr (pre ++ rest)) self
     = ({| data := write_bytes address bs (data self);
           start_address := start_address self |}, Ok tt))
  /\ (forall rest : str,
        Py.lstrip_chars (Py.lit "0x") ("0"%char :: "X"%char :: rest)
        = "X"%char :: rest
        /\ write_memory (Int address) (PStr ("0"%char :: "X"%char :: rest)) self
           = (self, Raise InvalidLiteral)).
Proof.
  split.
  - intros pre rest bs Hpre Hrest Hhead Hbs.
    unfold write_memory, mbind, method_bind, lift. cbn [to_int mret method_ret].
    rewrite lstrip_chars_0x by done.
    pose proof (fromhex_digits_length bs rest Hrest Hbs) as Hlen.
    unfold Py.range3, Py.upper. rewrite length_map, Hlen.
    replace ((Z.of_nat (2 * length bs) - 0 + 2 - 1) / 2) with (Z.of_nat (length bs))
      by (Z.div_mod_to_equations; lia).
    pose proof (write_chunks bs [] (map Py.upper_char rest) 0
                  (Forall_hex_digit_upper rest Hrest)) as Hchunks.
    cbn [app] in Hchunks. rewrite Hchunks; [|rewrite <- Hbs; by apply fromhex_upper|done].
    by rewrite store_bytes_write, Z.add_0_r.
  - intros rest. split; [done|].
    unfold write_memory, mbind, method_bind, lift. cbn [to_int mret method_ret].
    change (Py.lstrip_chars _ _) with ("X"%char :: rest).
    change (Py.upper ("X"%char :: rest)) with ("X"%char :: Py.upper rest).
    unfold Py.range3. cbn [length]. rewrite Nat2Z.inj_succ.
    set (n := Z.of_nat (length (Py.upper rest))).
    assert (exists m, (Z.succ n - 0 + 2 - 1) / 2 = Z.succ m /\ 0 <= m) as (m & -> & Hm).
    { exists ((Z.succ n - 0 + 2 - 1) / 2 - 1). subst n.
      split; [lia|]. Z.div_mod_to_equations. lia. }
    rewrite seqZ_cons by lia. rewrite fmap_cons. cbn [mapM].
    assert (Py.slice ("X"%char :: Py.upper rest) (0 + 2 * 0) (0 + 2 * 0 + 2)
            = "X"%char :: take 1 (Py.upper rest)) as ->.
    { unfold Py.slice. cbn [length]. rewrite Nat2Z.inj_succ. fold n.
      destruct (Py.upper rest); [done|]. subst n.
      rewrite clamp_index_in, clamp_index_in by (cbn [length]; lia). done. }
    by rewrite int16_X.
Qed.

Lemma write_memory_lstrip_witness :
  write_memory (Int 16) (PStr (Py.lit "0x00ab12")) init
  = ({| data := write_bytes 16 [0xAB; 0x12] (data init);
        start_address := start_address init |}, Ok tt).
Proof.
  apply (proj1 (write_memory_lstrip 16 init) (Py.lit "0x00") (Py.lit "ab12")).
  - repeat first [apply Forall_nil_2 | apply Forall_cons_2; [auto|]].
  - repeat first [apply Forall_nil_2 | apply Forall_cons_2; [by eexists|]].
  - discriminate.
  - reflexivity.
Defined.

(** ** What [save_file] writes *)

Lemma length_chunk (d : gmap Z Z) (base : Z) : length (chunk d base) = 32%nat.
Proof. unfold chunk. by rewrite length_fmap, length_seqZ. Qed.

Lemma bytes_chunk (d : gmap Z Z) (base : Z) : byte_cells d -> bytes (chunk d base).
Proof.
  intros Hd. unfold bytes, chunk. apply Forall_fmap, Forall_forall. intros i _. cbn.
  destruct (d !! (base + i)) as [v|] eqn:E; cbn; [by eapply Hd|lia].
Qed.

Lemma lookup_chunk (d : gmap Z Z) (base k : Z) :
  0 <= k < 32 -> chunk d base !! Z.to_nat k = Some (default 255 (d !! (base + k))).
Proof.
  intros Hk. unfold chunk. rewrite list_lookup_fmap, lookup_seqZ_lt by lia.
  by rewrite Z.add_0_l, Z2Nat.id by lia.
Qed.

Lemma record_checksum_range (count address type : Z) (payload : list Z) :
  0 <= record_checksum count address type payload < 256.
Proof. apply Z.mod_pos_bound. lia. Qed.

(** A written line, read back by the loop of [load_file] and stripped,
    is the record text. *)
Lemma strip_line (c z : ascii) (m : str) :
  Py.isspace c = false -> Py.isspace z = false ->
  Py.strip (c :: m ++ [z] ++ [newline]) = c :: m ++ [z].
Proof.
  intros Hc Hz. unfold Py.strip, Py.lstrip, Py.rstrip. cbn [Py.drop_while].
  rewrite Hc, !app_comm_cons. generalize (c :: m). intros l.
  rewrite app_assoc, !rev_unit. cbn [Py.drop_while].
  change (Py.isspace newline) with true. cbv iota. rewrite Hz.
  change (rev (z :: rev l)) with (rev (rev l) ++ [z]). by rewrite rev_involutive.
Qed.

Lemma strip_encode_record (type address : Z) (payload : list Z) :
  Py.strip (encode_record type address payload ++ [newline])
  = encode_record type address payload.
Proof.
  unfold encode_record.
  set (ck := record_checksum _ _ _ _).
  pose proof (record_checksum_range (Z.of_nat (length payload)) address type payload)
    as Hck. fold ck in Hck.
  rewrite (format_02X ck Hck).
  change (Py.lit ":") with [":"%char]. cbn [app].
  set (m := Py.format_X 2 _ ++ _ ++ _ ++ _).
  assert (forall x y : ascii,
            Py.format_X 2 (Z.of_nat (length payload)) ++ Py.format_X 4 address
            ++ Py.format_X 2 type ++ concat (Py.format_X 2 <$> payload) ++ [x; y]
            = (Py.format_X 2 (Z.of_nat (length payload)) ++ Py.format_X 4 address
               ++ Py.format_X 2 type ++ concat (Py.format_X 2 <$> payload) ++ [x])
              ++ [y]) as E.
  { intros x y. by rewrite <- !app_assoc. }
  subst m. rewrite E, <- app_assoc.
  apply strip_line; [done|].
  apply hex_digit_not_space, upper_hex_digit_hex_digit.
  exists (ck mod 16). split; [apply Z.mod_pos_bound; lia|done].
Qed.

(** The Extended Linear Address line of [save_file]. *)
Lemma ext_line_encode (high : Z) :
  0 <= high < 65536 ->
  Py.lit ":02000004" ++ Py.format_X 4 high
  ++ Py.format_X 2 (Z.land (-2 - 4 - (high ≫ 8) - Z.land high 255) 255)
  = encode_record 4 0 [high / 256; high mod 256].
Proof.
  intros Hh. unfold encode_record. rewrite format_04X by done.
  change (Py.lit ":02000004")
    with (Py.lit ":" ++ Py.format_X 2 (Z.of_nat (length [high / 256; high mod 256]))
          ++ Py.format_X 4 0 ++ Py.format_X 2 4).
  rewrite <- !app_assoc. cbn [fmap list_fmap concat]. rewrite app_nil_r.
  rewrite <- !app_assoc. do 6 f_equal.
  unfold record_checksum, Py.sum. cbn [foldl length].
  rewrite !land_255, shiftr_8. f_equal. change (Z.of_nat 2) with 2.
  Z.div_mod_to_equations. lia.
Qed.

(** The Data line of [save_file]. *)
Lemma data_line_encode (base : Z) (payload : list Z) :
  Py.lit ":" ++ Py.format_X 2 (Z.of_nat (length payload))
  ++ Py.format_X 4 (Z.land base 65535) ++ Py.lit "00"
  ++ concat (Py.format_X 2 <$> payload)
  ++ Py.format_X 2 (Z.land (- (Z.of_nat (length payload) + (base ≫ 8)
                               + Z.land base 255 + 0 + Py.sum payload)) 255)
  = encode_record 0 (Z.land base 65535) payload.
Proof.
  unfold encode_record. change (Py.format_X 2 0) with (Py.lit "00").
  do 6 f_equal. unfold record_checksum.
  rewrite !land_255, land_65535, shiftr_8.
  generalize (Py.sum payload) (Z.of_nat (length payload)). intros s n.
  Z.div_mod_to_equations. lia.
Qed.

(** ** Loading what [save_file] wrote *)

Lemma from_bytes_big_2 (h : Z) : Py.from_bytes_big [h / 256; h mod 256] = h.
Proof. unfold Py.from_bytes_big. cbn [foldl]. Z.div_mod_to_equations. lia. Qed.

Lemma land_shiftl_16_low (a b : Z) : 0 <= b < 65536 -> Z.land (a ≪ 16) b = 0.
Proof.
  intros Hb. apply Z.bits_inj'. intros n Hn.
  rewrite Z.land_spec, Z.bits_0.
  destruct (Z.lt_ge_cases n 16) as [Hlt|Hge].
  - by rewrite Z.shiftl_spec_low.
  - rewrite (Z.bits_above_log2 b n); [apply andb_false_r|lia|].
    destruct (decide (b = 0)) as [->|Hb0]; [cbn; lia|].
    assert (Z.log2 b < 16); [|lia]. apply Z.log2_lt_pow2; lia.
Qed.

Lemma lor_shiftl_16 (a b : Z) : 0 <= b < 65536 -> Z.lor (a ≪ 16) b = a * 65536 + b.
Proof.
  intros Hb. pose proof (land_shiftl_16_low a b Hb) as H0.
  rewrite <- Z.lxor_lor, <- Z.add_nocarry_lxor by done.
  by rewrite Z.shiftl_mul_pow2 by lia.
Qed.

(** The address a Data line of [save_file] is loaded at is its base. *)
Lemma loaded_base (base : Z) :
  0 <= base < 2 ^ 32 ->
  Z.lor ((base ≫ 16) ≪ 16) (Z.land base 65535) = base.
Proof.
  intros Hb. rewrite land_65535, shiftr_16, lor_shiftl_16.
  - Z.div_mod_to_equations. lia.
  - apply Z.mod_pos_bound. lia.
Qed.

Lemma high_in_range (base : Z) :
  0 <= base < 2 ^ 32 -> Z.land (base ≫ 16) 65535 = base ≫ 16 /\ 0 <= base ≫ 16 < 65536.
Proof.
  intros Hb. rewrite land_65535, shiftr_16.
  change (2 ^ 32) with 4294967296 in Hb.
  assert (0 <= base / 65536 < 65536) as H.
  { split; [apply Z.div_pos; lia|]. apply Z.div_lt_upper_bound; lia. }
  split; [|done]. by apply Z.mod_small.
Qed.

Section Reload.
Context (d : gmap Z Z) (Hd : byte_cells d).

Lemma save_chunks_cons (base : Z) (rest : list Z) (cur : option Z) :
  save_chunks d (base :: rest) cur =
    (if bool_decide (Some (base ≫ 16) = cur) then []
     else [encode_record 4 0 [Z.land (base ≫ 16) 65535 / 256;
                              Z.land (base ≫ 16) 65535 mod 256] ++ [newline]])
    ++ [encode_record 0 (Z.land base 65535) (chunk d base) ++ [newline]]
    ++ save_chunks d rest (Some (base ≫ 16)).
Proof using Type.
  cbn [save_chunks]. fold (chunk d base).
  rewrite <- data_line_encode, <- !app_assoc.
  case_bool_decide as E; cbn [negb].
  - by rewrite <- E.
  - rewrite <- ext_line_encode, <- !app_assoc; [done|].
    rewrite land_65535. apply Z.mod_pos_bound. lia.
Qed.

Lemma load_loop_saved_chunks (bases : list Z) :
  Forall (fun b => 0 <= b < 2 ^ 32) bases ->
  forall (cur : option Z) (ext : Z) (first : option Z) (self : IntelHexFile)
         (rest : list str),
    (forall c, cur = Some c -> ext = c ≪ 16) ->
    exists ext',
      load_loop (save_chunks d bases cur ++ rest) ext first self
      = load_loop rest ext'
          (match first with Some _ => first | None => head bases end)
          {| data := write_chunks_at d bases (data self);
             start_address := start_address self |}.
Proof using Hd.
  induction 1 as [|base bases Hb Hbs IH]; intros cur ext first self rest Hcur.
  - exists ext. cbn. by destruct first, self.
  - rewrite save_chunks_cons.
    destruct (high_in_range base Hb) as [Hhigh Hrange]. rewrite Hhigh.
    assert (exists ext1,
              ext1 = (base ≫ 16) ≪ 16 /\
              load_loop
                (((if bool_decide (Some (base ≫ 16) = cur) then []
                   else [encode_record 4 0 [(base ≫ 16) / 256; (base ≫ 16) mod 256]
                         ++ [newline]])
                  ++ [encode_record 0 (Z.land base 65535) (chunk d base) ++ [newline]]
                  ++ save_chunks d bases (Some (base ≫ 16))) ++ rest)
                ext first self
              = load_loop
                  ((encode_record 0 (Z.land base 65535) (chunk d base) ++ [newline])
                   :: save_chunks d bases (Some (base ≫ 16)) ++ rest)
                  ext1 first self) as (ext1 & -> & ->).
    { case_bool_decide as E.
      - exists ext. split; [by apply Hcur|]. done.
      - eexists. split; [reflexivity|]. cbn [app].
        erewrite load_loop_record; [|rewrite strip_encode_record; apply parse_line_encode|done].
        + cbn [apply_record]. change (4 =? 0) with false. change (4 =? 4) with true.
          cbv iota. by rewrite from_bytes_big_2.
        + lia.
        + lia.
        + repeat constructor; Z.div_mod_to_equations; lia.
        + cbn [length]. lia. }
    erewrite load_loop_record;
      [|rewrite strip_encode_record; apply parse_line_encode|done].
    + cbn [apply_record]. change (0 =? 0) with true. cbv iota.
      rewrite (loaded_base base Hb).
      destruct (IH (Some (base ≫ 16)) ((base ≫ 16) ≪ 16)
                  (match first with None => Some base | Some _ => first end)
                  {| data := write_bytes base (chunk d base) (data self);
                     start_address := start_address self |} rest) as [ext' Hload].
      { by intros c [= <-]. }
      exists ext'. rewrite Hload. by destruct first.
    + lia.
    + rewrite land_65535. apply Z.mod_pos_bound. lia.
    + by apply bytes_chunk.
    + rewrite length_chunk. lia.
Qed.
End Reload.

(** ** The reloaded cells *)

Lemma lookup_write_chunks_at (d : gmap Z Z) (bases : list Z) :
  forall (m : gmap Z Z) (a : Z),
    write_chunks_at d bases m !! a =
      if bool_decide (Exists (fun b => b <= a < b + 32) bases)
      then Some (default 255 (d !! a))
      else m !! a.
Proof.
  unfold write_chunks_at.
  induction bases as [|b bases IH]; intros m a; cbn [foldl].
  - rewrite bool_decide_eq_false_2; [done|]. by intros H%Exists_nil.
  - rewrite IH. case_bool_decide as H1.
    + rewrite bool_decide_eq_true_2; [done|]. by apply Exists_cons_tl.
    + rewrite lookup_write_bytes, length_chunk.
      case_bool_decide as H2.
      * rewrite bool_decide_eq_true_2 by (by apply Exists_cons_hd).
        rewrite lookup_chunk by lia. do 3 f_equal. lia.
      * rewrite bool_decide_eq_false_2; [done|].
        intros [H|H]%Exists_cons; [|done]. apply H2. change (Z.of_nat 32) with 32. lia.
Qed.

(** The chunk bases of [save_file] cover the span of the addresses. *)
Lemma Exists_range3 (lo hi a : Z) :
  lo <= hi ->
  Exists (fun b => b <= a < b + 32) (Py.range3 lo (hi + 1) 32)
  <-> lo <= a < lo + 32 * ((hi - lo) / 32 + 1).
Proof.
  intros Hle. unfold Py.range3.
  replace ((hi + 1 - lo + 32 - 1) / 32) with ((hi - lo) / 32 + 1)
    by (Z.div_mod_to_equations; lia).
  assert (0 <= (hi - lo) / 32) by (apply Z.div_pos; lia).
  rewrite Exists_exists. split.
  - intros (b & Hb & Hab). apply list_elem_of_fmap in Hb as (k & -> & Hk).
    apply elem_of_seqZ in Hk. lia.
  - intros Ha. exists (lo + 32 * ((a - lo) / 32)). split.
    + apply list_elem_of_fmap. exists ((a - lo) / 32). split; [done|].
      apply elem_of_seqZ. Z.div_mod_to_equations. lia.
    + Z.div_mod_to_equations. lia.
Qed.

Lemma Forall_range3 (lo hi : Z) :
  lo <= hi -> Forall (fun b => lo <= b <= hi) (Py.range3 lo (hi + 1) 32).
Proof.
  intros Hle. unfold Py.range3. apply Forall_fmap, Forall_forall.
  intros k Hk%elem_of_seqZ. cbn. Z.div_mod_to_equations. lia.
Qed.

Lemma head_range3 (lo hi : Z) :
  lo <= hi -> head (Py.range3 lo (hi + 1) 32) = Some lo.
Proof.
  intros Hle. unfold Py.range3.
  replace ((hi + 1 - lo + 32 - 1) / 32) with (Z.succ ((hi - lo) / 32))
    by (Z.div_mod_to_equations; lia).
  rewrite seqZ_cons by (assert (0 <= (hi - lo) / 32) by (apply Z.div_pos; lia); lia).
  cbn. f_equal. lia.
Qed.

(** ** The sorted addresses *)

Lemma elem_of_keys (d : gmap Z Z) (a : Z) :
  a ∈ (map_to_list d).*1 <-> is_Some (d !! a).
Proof.
  rewrite list_elem_of_fmap. split.
  - intros ([a' v] & -> & H%elem_of_map_to_list). by exists v.
  - intros [v Hv]. exists (a, v). split; [done|]. by apply elem_of_map_to_list.
Qed.

Lemma StronglySorted_last (l : list Z) (x0 : Z) :
  StronglySorted Z.le l -> forall x, x ∈ l -> x <= List.last l x0.
Proof.
  induction 1 as [|y l Hl IH Hy]; intros x Hx; [by apply elem_of_nil in Hx|].
  destruct l as [|z l].
  - apply list_elem_of_singleton in Hx as ->. cbn. lia.
  - change (List.last (y :: z :: l) x0) with (List.last (z :: l) x0).
    apply elem_of_cons in Hx as [->|Hx]; [|by apply IH].
    etrans; [|apply IH; by left]. by apply Forall_inv in Hy.
Qed.

Lemma last_elem_of (l : list Z) (x0 : Z) : l <> [] -> List.last l x0 ∈ l.
Proof.
  induction l as [|y l IH]; [done|]. intros _. destruct l as [|z l].
  - by left.
  - right. by apply IH.
Qed.

(** [addresses[0]] and [addresses[-1]] are the lowest and the highest
    populated address. *)
Lemma sorted_keys_bounds (d : gmap Z Z) :
  d <> ∅ ->
  exists lo hi rest,
    Py.sorted (map_to_list d).*1 = lo :: rest
    /\ List.last (lo :: rest) lo = hi
    /\ is_Some (d !! lo) /\ is_Some (d !! hi)
    /\ forall a, is_Some (d !! a) -> lo <= a <= hi.
Proof.
  intros Hne. unfold Py.sorted.
  pose proof (merge_sort_Permutation Z.le (map_to_list d).*1) as Hperm.
  pose proof (Sorted_merge_sort Z.le (map_to_list d).*1) as Hsorted.
  apply Sorted_StronglySorted in Hsorted; [|intros x y z; apply Z.le_trans].
  destruct (merge_sort Z.le (map_to_list d).*1) as [|lo rest] eqn:E.
  { apply Permutation_nil_l in Hperm. symmetry in Hperm.
    apply fmap_nil_inv, map_to_list_empty_iff in Hperm. done. }
  exists lo, (List.last (lo :: rest) lo), rest. split; [done|]. split; [done|].
  assert (forall a, a ∈ lo :: rest <-> is_Some (d !! a)) as Hin.
  { intros a. by rewrite Hperm, elem_of_keys. }
  split; [apply Hin; by left|]. split; [apply Hin, last_elem_of; done|].
  intros a Ha%Hin. split.
  - apply elem_of_cons in Ha as [->|Ha]; [lia|].
    apply StronglySorted_inv in Hsorted as [_ Hall].
    rewrite Forall_forall in Hall. by apply Hall.
  - by apply StronglySorted_last.
Qed.

(** ** Loaded cells are bytes *)

Lemma fromhex_bytes (n : nat) :
  forall (s : str) (bs : list Z),
    (length s < n)%nat -> Py.fromhex s = Some bs -> bytes bs.
Proof.
  induction n as [|n IH]; intros s bs Hlen Hbs; [lia|].
  destruct s as [|c r]; [injection Hbs as <-; constructor|].
  cbn [Py.fromhex length] in Hbs, Hlen.
  destruct (Py.is_ascii_space c); [apply (IH r); [lia|done]|].
  destruct (Py.digit_value c) as [hi|] eqn:Hhi; [|done].
  destruct r as [|c2 r2]; [done|].
  destruct (Py.digit_value c2) as [lo|] eqn:Hlo; [|done].
  destruct (Py.fromhex r2) as [bs'|] eqn:E; [|done].
  injection Hbs as <-. cbn [length] in Hlen.
  apply hex_digit_code in Hhi as [? _], Hlo as [? _].
  constructor; [lia|]. apply (IH r2); [lia|done].
Qed.

Lemma parse_line_bytes (line : str) (t a : Z) (p : list Z) :
  parse_line line = Ok (t, a, p) -> bytes p.
Proof.
  unfold parse_line, parse_fields. destruct (negb _); [done|].
  repeat (case_or_raise; [|done]).
  destruct (negb _); [done|]. intros [= _ _ <-].
  eapply fromhex_bytes; [|eassumption]. constructor.
Qed.

Lemma records_of_bytes (lines : list str) :
  forall rs, records_of lines = Ok rs -> Forall (fun r : record => bytes r.2) rs.
Proof.
  induction lines as [|line rest IH]; intros rs Hrs.
  - injection Hrs as <-. constructor.
  - cbn [records_of] in Hrs. destruct (Py.strip line) as [|c l]; [by apply IH|].
    destruct (parse_line (c :: l)) as [[[t a] p]|e] eqn:Hp; [|done].
    cbn in Hrs. destruct (t =? 1); [injection Hrs as <-; constructor|].
    destruct (records_of rest) as [rs'|]; [|done]. injection Hrs as <-.
    constructor; [|by apply IH]. cbn. by eapply parse_line_bytes.
Qed.

Lemma write_bytes_byte_cells (p : list Z) :
  bytes p -> forall a d, byte_cells d -> byte_cells (write_bytes a p d).
Proof.
  induction 1 as [|b p Hb Hp IH]; intros a d Hd; [done|].
  cbn [write_bytes]. apply IH. intros k v.
  rewrite lookup_insert. case_decide; [intros [= <-]; lia|apply Hd].
Qed.

Lemma foldl_apply_record_byte_cells (rs : list record) :
  Forall (fun r : record => bytes r.2) rs ->
  forall ext first self,
    byte_cells (data self) ->
    byte_cells (data (foldl apply_record (ext, first, self) rs).2).
Proof.
  induction 1 as [|[[t a] p] rs Hp Hrs IH]; intros ext first self Hd; [done|].
  cbn [foldl apply_record]. cbn in Hp.
  destruct (t =? 0); [apply IH; by apply write_bytes_byte_cells|].
  destruct (t =? 4); [by apply IH|]. destruct (t =? 5); by apply IH.
Qed.

Lemma load_file_ok_records (lines : list str) (self self' : IntelHexFile) :
  load_file lines self = (self', Ok tt) -> exists rs, records_of lines = Ok rs.
Proof.
  intros Hload. destruct (records_of lines) as [rs|e] eqn:E; [by exists rs|].
  pose proof (load_loop_records_raise lines e E 0 None self) as Hr.
  unfold load_file, mbind, method_bind in Hload.
  destruct (load_loop lines 0 None self) as [s [f|e']]; [done|].
  by injection Hload.
Qed.

Lemma load_file_byte_cells (lines : list str) (self self' : IntelHexFile) :
  byte_cells (data self) ->
  load_file lines self = (self', Ok tt) -> byte_cells (data self').
Proof.
  intros Hd Hload. destruct (load_file_ok_records _ _ _ Hload) as [rs Hrs].
  rewrite (load_file_records lines rs self Hrs) in Hload.
  pose proof (foldl_apply_record_byte_cells rs (records_of_bytes _ _ Hrs)
                0 None self Hd) as Hb.
  destruct (foldl apply_record (0, None, self) rs) as [[ext first] self1].
  injection Hload as <-. exact Hb.
Qed.

(** ** Save, then load *)

Lemma parse_eof_line :
  parse_line (Py.strip (Py.lit ":00000001FF" ++ [newline])) = Ok (1, 0, []).
Proof. reflexivity. Qed.

(** Saving an image of bytes within the 32-bit address space and
    loading the lines into a fresh image gives the chunks read from
    the image, from the lowest address on. *)
Lemma save_then_load (self : IntelHexFile) :
  byte_cells (data self) ->
  data self <> ∅ ->
  (forall a, is_Some (data self !! a) -> 0 <= a < 2 ^ 32) ->
  exists (out : list str) (lo hi : Z),
    save_file self = (self, Ok out)
    /\ is_Some (data self !! lo) /\ is_Some (data self !! hi)
    /\ (forall a, is_Some (data self !! a) -> lo <= a <= hi)
    /\ load_file out init
       = ({| data := write_chunks_at (data self) (Py.range3 lo (hi + 1) 32) ∅;
             start_address := Some lo |}, Ok tt).
Proof.
  intros Hbytes Hne Hrange.
  destruct (sorted_keys_bounds (data self) Hne)
    as (lo & hi & rest & Hsorted & Hlast & Hlo & Hhi & Hbounds).
  assert (lo <= hi) as Hle by (by apply Hbounds).
  eexists _, lo, hi. split; [|split; [done|split; [done|split; [done|]]]].
  - unfold save_file, mbind, method_bind, get_self. rewrite Hsorted, Hlast.
    reflexivity.
  - unfold load_file, mbind, method_bind.
    destruct (load_loop_saved_chunks (data self) Hbytes
                (Py.range3 lo (hi + 1) 32)) with
      (cur := @None Z) (ext := 0) (first := @None Z) (self := init)
      (rest := [Py.lit ":00000001FF" ++ [newline]]) as [ext' Hload].
    + eapply Forall_impl; [by apply Forall_range3|]. cbn. intros b Hb.
      pose proof (Hrange lo Hlo). pose proof (Hrange hi Hhi). lia.
    + done.
    + rewrite Hload, (load_loop_eof _ _ _ _ _ 0 []) by apply parse_eof_line.
      by rewrite head_range3.
Qed.

(** C1 as stated fails on both counts.  This file sets one byte and an
    explicit entry point 0x10.  [save_file] writes the whole 32-byte
    chunk, so the reloaded image has 32 populated cells where the
    original has one; and it writes no Start Linear Address record, so
    the explicit entry point comes back as the first data address. *)
Lemma round_trip_pads_and_drops_entry :
  let lines := [Py.lit ":0100000011EE"; Py.lit ":0400000500000010E7";
                Py.lit ":00000001FF"] in
  let self := (load_file lines init).1 in
  let out := match (save_file self).2 with Ok out => out | Raise _ => [] end in
  let self' := (load_file out init).1 in
  (load_file lines init).2 = Ok tt
  /\ save_file self = (self, Ok out)
  /\ (load_file out init).2 = Ok tt
  /\ data self = {[0 := 0x11]}
  /\ data self !! 1 = None /\ data self' !! 1 = Some 0xFF
  /\ data self' <> data self
  /\ start_address self = Some 0x10 /\ start_address self' = Some 0.
Proof.
  repeat split; try (vm_compute; reflexivity).
  intros H. apply (f_equal (fun m : gmap Z Z => m !! 1)) in H. vm_compute in H.
  discriminate H.
Qed.

(** Outside the 32-bit address space the round trip moves the data: a
    three-byte Extended Linear Address payload puts a byte at 2^32, the
    record [save_file] writes keeps 16 bits of the upper address, and
    the byte comes back at 0. *)
Example round_trip_wraps_above_32_bits :
  let lines := [Py.lit ":03000004010000F8"; Py.lit ":0100000011EE";
                Py.lit ":00000001FF"] in
  let self := (load_file lines init).1 in
  let out := match (save_file self).2 with Ok out => out | Raise _ => [] end in
  let self' := (load_file out init).1 in
  (load_file lines init).2 = Ok tt
  /\ save_file self = (self, Ok out)
  /\ (load_file out init).2 = Ok tt
  /\ data self = {[2 ^ 32 := 0x11]}
  /\ data self' !! (2 ^ 32) = None /\ data self' !! 0 = Some 0x11.
Proof. repeat split; vm_compute; reflexivity. Qed.

(** C1, amended: for an image produced by [load_file] that has a
    populated address and whose populated addresses all lie in
    [0, 2^32), [save_file] returns, and loading its lines into a fresh
    image returns an image that reads as the original at every address
    when an unpopulated cell reads as 0xFF.  Every populated cell keeps
    its byte; the populated addresses become the whole chunks from the
    lowest address [lo] up to the one holding the highest address [hi],
    the added cells holding 0xFF; and the entry point becomes [lo],
    whether it was explicit or inferred. *)
Theorem save_load_round_trip (lines : list str) (self : IntelHexFile) :
  load_file lines init = (self, Ok tt) ->
  data self <> ∅ ->
  (forall a, is_Some (data self !! a) -> 0 <= a < 2 ^ 32) ->
  exists (out : list str) (self' : IntelHexFile) (lo hi : Z),
    save_file self = (self, Ok out)
    /\ load_file out init = (self', Ok tt)
    /\ is_Some (data self !! lo) /\ is_Some (data self !! hi)
    /\ (forall a, is_Some (data self !! a) -> lo <= a <= hi)
    /\ (forall a, default 0xFF (data self' !! a) = default 0xFF (data self !! a))
    /\ (forall a v, data self !! a = Some v -> data self' !! a = Some v)
    /\ (forall a, is_Some (data self' !! a)
                  <-> lo <= a < lo + 32 * ((hi - lo) / 32 + 1))
    /\ start_address self' = Some lo.
Proof.
  intros Hload Hne Hrange.
  assert (byte_cells (data self)) as Hbytes.
  { eapply load_file_byte_cells; [|exact Hload]. intros a v H.
    cbn [init data] in H. by rewrite lookup_empty in H. }
  destruct (save_then_load self Hbytes Hne Hrange)
    as (out & lo & hi & Hsave & Hlo & Hhi & Hbounds & Hreload).
  assert (lo <= hi) as Hle by (by apply Hbounds).
  assert (forall a,
            write_chunks_at (data self) (Py.range3 lo (hi + 1) 32) ∅ !! a
            = if bool_decide (lo <= a < lo + 32 * ((hi - lo) / 32 + 1))
              then Some (default 255 (data self !! a)) else None) as Hlookup.
  { intros a. rewrite lookup_write_chunks_at, lookup_empty.
    by rewrite (bool_decide_ext _ _ (Exists_range3 lo hi a Hle)). }
  assert (forall a, is_Some (data self !! a)
                    -> lo <= a < lo + 32 * ((hi - lo) / 32 + 1)) as Hcover.
  { intros a Ha%Hbounds. Z.div_mod_to_equations. lia. }
  eexists out, _, lo, hi.
  split; [done|]. split; [exact Hreload|]. split; [done|]. split; [done|].
  split; [done|]. cbn [data start_address].
  split; [|split; [|split; [|done]]].
  - intros a. rewrite Hlookup. case_bool_decide as Ha; [done|].
    destruct (data self !! a) eqn:E; [|done]. exfalso. apply Ha, Hcover. by rewrite E.
  - intros a v Hv. rewrite Hlookup, bool_decide_eq_true_2, Hv; [done|].
    apply Hcover. by rewrite Hv.
  - intros a. rewrite Hlookup. case_bool_decide as Ha.
    + split; [done|]. by eexists.
    + split; [by intros [? ?]|done].
Qed.

Lemma save_load_round_trip_witness :
  exists (out : list str) (self' : IntelHexFile) (lo hi : Z),
    save_file {| data := {[0x10010 := 0xAA]}; start_address := Some 0x10010 |}
    = ({| data := {[0x10010 := 0xAA]}; start_address := Some 0x10010 |}, Ok out)
    /\ load_file out init = (self', Ok tt)
    /\ lo = 0x10010 /\ hi = 0x10010
    /\ data self' !! 0x10010 = Some 0xAA
    /\ start_address self' = Some lo.
Proof.
  destruct (save_load_round_trip
              [Py.lit ":020000040001F9"; Py.lit ":01001000AA45"; Py.lit ":00000001FF"]
              {| data := {[0x10010 := 0xAA]}; start_address := Some 0x10010 |})
    as (out & self' & lo & hi & Hsave & Hload & Hlo & Hhi & _ & _ & Hkeep & _ & Hstart).
  - reflexivity.
  - cbn [data]. apply insert_non_empty.
  - cbn [data]. intros a [v [<- _]%lookup_singleton_Some]. lia.
  - cbn [data] in Hlo, Hhi.
    destruct Hlo as [? [<- _]%lookup_singleton_Some].
    destruct Hhi as [? [<- _]%lookup_singleton_Some].
    exists out, self', 0x10010, 0x10010. repeat split; try done.
    apply Hkeep. cbn [data]. apply lookup_singleton_eq.
Defined.

(** ** More on the loader *)

(** X1: blank lines, wherever they stand, change nothing: [load_file]
    returns or raises the same, with the same object, on the file
    without them. *)
Theorem load_file_skips_blank_lines (lines : list str) (self : IntelHexFile) :
  load_file lines self
  = load_file (filter (fun l => Py.strip l <> []) lines) self.
Proof.
  unfold load_file, mbind, method_bind.
  enough (forall ext first s,
            load_loop lines ext first s
            = load_loop (filter (fun l => Py.strip l <> []) lines) ext first s)
    as -> by done.
  induction lines as [|line rest IH]; intros ext first s; [done|].
  rewrite filter_cons. case_decide as Hblank.
  - destruct (parse_line (Py.strip line)) as [[[t a] p]|e] eqn:Hp.
    + destruct (decide (t = 1)) as [->|Ht].
      * by rewrite !(load_loop_eof _ _ _ _ _ a p).
      * rewrite !(load_loop_record _ _ _ _ _ t a p) by done.
        destruct (apply_record _ _) as [[ext' first'] s']. apply IH.
    + by rewrite !(load_loop_raise _ _ _ _ _ e).
  - rewrite load_loop_blank; [apply IH|].
    by destruct (decide (Py.strip line = [])).
Qed.

(** X2: a record whose type is none of 0x00, 0x01, 0x04, 0x05 is
    skipped: the load goes as on the file without that line. *)
Theorem load_file_ignores_other_types (pre post : list str) (line : str)
    (t a : Z) (p : list Z) (self : IntelHexFile) :
  parse_line (Py.strip line) = Ok (t, a, p) ->
  t <> 0 -> t <> 1 -> t <> 4 -> t <> 5 ->
  load_file (pre ++ line :: post) self = load_file (pre ++ post) self.
Proof.
  intros Hp H0 H1 H4 H5. unfold load_file, mbind, method_bind.
  enough (forall ext first s,
            load_loop (pre ++ line :: post) ext first s
            = load_loop (pre ++ post) ext first s) as -> by done.
  induction pre as [|x pre IH]; intros ext first s.
  - cbn [app]. rewrite (load_loop_record _ _ _ _ _ t a p) by done.
    cbn [apply_record].
    replace (t =? 0) with false by lia. replace (t =? 4) with false by lia.
    by replace (t =? 5) with false by lia.
  - rewrite <- !app_comm_cons.
    destruct (Py.strip x) as [|c l] eqn:E.
    { rewrite !load_loop_blank by done. apply IH. }
    destruct (parse_line (Py.strip x)) as [[[t' b] q]|e] eqn:Hx.
    + destruct (decide (t' = 1)) as [->|Ht].
      * by rewrite !(load_loop_eof _ _ _ _ _ b q).
      * rewrite !(load_loop_record _ _ _ _ _ t' b q) by done.
        destruct (apply_record _ _) as [[ext' first'] s']. apply IH.
    + rewrite !(load_loop_raise _ _ _ _ _ e); try done; by rewrite E.
Qed.

Lemma load_file_ignores_other_types_witness :
  load_file ([Py.lit ":020000021000EC"] ++ Py.lit ":020000021000EC"
             :: [Py.lit ":0100000011EE"]) init
  = load_file ([Py.lit ":020000021000EC"] ++ [Py.lit ":0100000011EE"]) init.
Proof.
  apply (load_file_ignores_other_types _ _ _ 2 0 [16; 0]); [reflexivity|lia..].
Defined.

(** The loop over lines that all decode and hold no End-Of-File record
    runs on into the lines that follow. *)
Lemma load_loop_prefix (pre : list str) :
  Forall (fun l => Py.strip l = []
                   \/ exists t a p, parse_line (Py.strip l) = Ok (t, a, p) /\ t <> 1)
         pre ->
  forall ext first self,
    exists ext' first' self',
      forall rest,
        load_loop (pre ++ rest) ext first self = load_loop rest ext' first' self'.
Proof.
  induction 1 as [|x pre Hx Hpre IH]; intros ext first self.
  - by exists ext, first, self.
  - destruct Hx as [Hblank|(t & a & p & Hp & Ht)].
    + destruct (IH ext first self) as (ext' & first' & self' & Hrun).
      exists ext', first', self'. intros rest.
      rewrite <- app_comm_cons, load_loop_blank by done. apply Hrun.
    + destruct (apply_record (ext, first, self) (t, a, p))
        as [[ext1 first1] self1] eqn:Ha.
      destruct (IH ext1 first1 self1) as (ext' & first' & self' & Hrun).
      exists ext', first', self'. intros rest.
      rewrite <- app_comm_cons, (load_loop_record _ _ _ _ _ t a p) by done.
      rewrite Ha. apply Hrun.
Qed.

(** The entry point the loop leaves after such lines: none when there
    was none before and no line is a Start Linear Address record, one
    otherwise. *)
Lemma load_loop_prefix_entry (pre : list str) :
  Forall (fun l => Py.strip l = []
                   \/ exists t a p, parse_line (Py.strip l) = Ok (t, a, p) /\ t <> 1)
         pre ->
  forall ext first self,
    exists ext' first' self',
      (forall rest,
         load_loop (pre ++ rest) ext first self = load_loop rest ext' first' self')
      /\ (start_address self = None ->
          Forall (fun l => forall a p, parse_line (Py.strip l) <> Ok (5, a, p)) pre ->
          start_address self' = None)
      /\ (start_address self <> None
          \/ Exists (fun l => exists a p, parse_line (Py.strip l) = Ok (5, a, p)) pre ->
          start_address self' <> None).
Proof.
  induction 1 as [|x pre Hx Hpre IH]; intros ext first self.
  - exists ext, first, self. split; [done|]. split; [done|].
    intros [H|H]; [done|]. by apply Exists_nil in H.
  - destruct Hx as [Hblank|(t & a & p & Hp & Ht)].
    + destruct (IH ext first self) as (ext' & first' & self' & Hrun & Hnone & Hsome).
      exists ext', first', self'. split; [|split].
      * intros rest. rewrite <- app_comm_cons, load_loop_blank by done. apply Hrun.
      * intros Hs H5. apply Forall_cons_1 in H5 as [_ H5]. by apply Hnone.
      * intros [Hs|H5]; [by apply Hsome; left|].
        apply Exists_cons in H5 as [(b & q & Hq)|H5]; [|by apply Hsome; right].
        rewrite Hblank in Hq. discriminate Hq.
    + destruct (apply_record (ext, first, self) (t, a, p))
        as [[ext1 first1] self1] eqn:Ha.
      destruct (IH ext1 first1 self1) as (ext' & first' & self' & Hrun & Hnone & Hsome).
      assert (t <> 5 -> start_address self1 = start_address self) as Hkeep.
      { intros H5. cbn [apply_record] in Ha.
        destruct (t =? 0); [by injection Ha as <- <- <-|].
        destruct (t =? 4); [by injection Ha as <- <- <-|].
        destruct (Z.eqb_spec t 5); [done|]. by injection Ha as <- <- <-. }
      assert (t = 5 -> start_address self1 <> None) as Hset.
      { intros ->. cbn in Ha. by injection Ha as <- <- <-. }
      exists ext', first', self'. split; [|split].
      * intros rest.
        rewrite <- app_comm_cons, (load_loop_record _ _ _ _ _ t a p) by done.
        rewrite Ha. apply Hrun.
      * intros Hs H5. apply Forall_cons_1 in H5 as [Hx5 H5].
        apply Hnone; [|done]. rewrite Hkeep; [done|].
        intros ->. by apply (Hx5 a p).
      * intros [Hs|H5].
        -- apply Hsome. left. destruct (decide (t = 5)) as [E|E]; [by apply Hset|].
           by rewrite Hkeep.
        -- apply Exists_cons in H5 as [(b & q & Hq)|H5]; [|by apply Hsome; right].
           apply Hsome. left. apply Hset. congruence.
Qed.

(** X3: the load is not undone when it fails.  When the lines before
    the first line that does not decode all decode and hold no
    End-Of-File record, [load_file] raises the error of that line, and
    the cells of the object are those a load of the lines before it
    leaves.  The fallback to the first data address is not applied: an
    object that had no entry point has none after the failure unless one
    of those lines is a Start Linear Address record, whatever Data
    records they hold; with an entry point before the load or such a
    record among them, the entry point is the one the load of those
    lines leaves. *)
Theorem load_file_fails_at_first_bad_line (pre post : list str) (bad : str)
    (e : exn) (self : IntelHexFile) :
  Forall (fun l => Py.strip l = []
                   \/ exists t a p, parse_line (Py.strip l) = Ok (t, a, p) /\ t <> 1)
         pre ->
  Py.strip bad <> [] -> parse_line (Py.strip bad) = Raise e ->
  exists self_pre self',
    load_file pre self = (self_pre, Ok tt)
    /\ load_file (pre ++ bad :: post) self = (self', Raise e)
    /\ data self' = data self_pre
    /\ (start_address self = None ->
        Forall (fun l => forall a p, parse_line (Py.strip l) <> Ok (5, a, p)) pre ->
        start_address self' = None)
    /\ (start_address self <> None
        \/ Exists (fun l => exists a p, parse_line (Py.strip l) = Ok (5, a, p)) pre ->
        start_address self' = start_address self_pre).
Proof.
  intros Hpre Hne Hbad.
  destruct (load_loop_prefix_entry pre Hpre 0 None self)
    as (ext' & first' & self1 & Hrun & Hnone & Hsome).
  pose proof (Hrun []) as Hend. rewrite app_nil_r in Hend. cbn [load_loop] in Hend.
  unfold load_file, mbind, method_bind.
  rewrite Hend, (Hrun (bad :: post)), (load_loop_raise _ _ _ _ _ e) by done.
  cbn [mret method_ret]. unfold get_self.
  destruct self1 as [d [s|]]; cbn [start_address] in Hnone, Hsome.
  - eexists _, _. split; [reflexivity|]. split; [reflexivity|]. done.
  - eexists _, _. split; [reflexivity|]. split; [reflexivity|].
    split; [done|]. split; [done|]. intros H. by destruct (Hsome H).
Qed.

(** A Data record, then a line whose checksum is wrong: the load of the
    first line alone sets the entry point to 0, the first data address;
    the failed load of both stores the byte and leaves no entry
    point. *)
Lemma load_file_fails_at_first_bad_line_witness :
  exists self_pre self',
    load_file [Py.lit ":0100000011EE"] init = (self_pre, Ok tt)
    /\ load_file ([Py.lit ":0100000011EE"] ++ Py.lit ":0100000011EF" :: []) init
       = (self', Raise (ChecksumMismatch 0xEF 0xEE))
    /\ data self' = {[0 := 0x11]}
    /\ start_address self' = None
    /\ start_address self_pre = Some 0.
Proof.
  destruct (load_file_fails_at_first_bad_line
              [Py.lit ":0100000011EE"] [] (Py.lit ":0100000011EF")
              (ChecksumMismatch 0xEF 0xEE) init)
    as (self_pre & self' & Hpre & Hload & Hdata & Hnone & _).
  - constructor; [|constructor]. right. exists 0, 0, [17]. split; [reflexivity|lia].
  - done.
  - reflexivity.
  - exists self_pre, self'. split; [exact Hpre|]. split; [exact Hload|].
    vm_compute in Hpre. injection Hpre as <-.
    split; [by rewrite Hdata|]. split; [|reflexivity].
    apply Hnone; [reflexivity|].
    constructor; [|constructor]. intros a p. by vm_compute.
Defined.

Lemma foldl_apply_record_none (rs : list record) :
  forall ext first self,
    let st := foldl apply_record (ext, first, self) rs in
    (st.1.2 = None <-> first = None /\ Forall (fun r : record => r.1.1 <> 0) rs)
    /\ (start_address st.2 = None
        <-> start_address self = None /\ Forall (fun r : record => r.1.1 <> 5) rs).
Proof.
  induction rs as [|[[t a] p] rs IH]; intros ext first self.
  - cbn. split; (split; [by intros ?|by intros [? _]]).
  - cbn [foldl apply_record]. rewrite !Forall_cons. cbn [fst snd].
    destruct (Z.eqb_spec t 0) as [->|H0].
    { destruct (IH ext (match first with None => Some (Z.lor ext a) | Some _ => first end)
                  {| data := write_bytes (Z.lor ext a) p (data self);
                     start_address := start_address self |}) as [IH1 IH2].
      cbn zeta in IH1, IH2. rewrite IH1, IH2. cbn [start_address].
      split; [|intuition lia]. split; [|by intros [_ [? _]]].
      intros [Hf _]. by destruct first. }
    destruct (Z.eqb_spec t 4) as [->|H4].
    { destruct (IH (Py.from_bytes_big p ≪ 16) first self) as [IH1 IH2].
      cbn zeta in IH1, IH2. rewrite IH1, IH2. intuition lia. }
    destruct (Z.eqb_spec t 5) as [->|H5].
    { destruct (IH ext first
                  {| data := data self;
                     start_address := Some (Py.from_bytes_big p) |}) as [IH1 IH2].
      cbn zeta in IH1, IH2. rewrite IH1, IH2. cbn [start_address].
      split; [intuition lia|]. split; [by intros [? _]|by intros [_ [? _]]]. }
    destruct (IH ext first self) as [IH1 IH2].
    cbn zeta in IH1, IH2. rewrite IH1, IH2. intuition lia.
Qed.

(** X4: a load into a fresh image leaves it without entry point
    exactly when no Data record and no Start Linear Address record was
    processed; any other load that returns sets one. *)
Theorem load_file_no_entry_point (lines : list str) (rs : list record) :
  records_of lines = Ok rs ->
  exists self',
    load_file lines init = (self', Ok tt)
    /\ (start_address self' = None
        <-> Forall (fun r : record => r.1.1 <> 0 /\ r.1.1 <> 5) rs).
Proof.
  intros Hrs. rewrite (load_file_records lines rs init Hrs).
  destruct (foldl_apply_record_none rs 0 None init) as [Hfirst Hstart].
  destruct (foldl apply_record (0, None, init) rs) as [[ext first] self1].
  cbn [fst snd] in Hfirst, Hstart. cbn [init start_address] in Hstart.
  eexists. split; [reflexivity|]. cbn [start_address].
  rewrite Forall_and.
  destruct (start_address self1) as [s|] eqn:Es.
  - split; [done|]. intros [_ H5]. by apply Hstart.
  - rewrite Hfirst. split; [intros [_ H0]; split; [done|by apply Hstart]|by intros [? _]].
Qed.

Lemma load_file_no_entry_point_witness :
  exists self',
    load_file [Py.lit ":020000040001F9"; Py.lit ":00000001FF"] init = (self', Ok tt)
    /\ start_address self' = None.
Proof.
  destruct (load_file_no_entry_point
              [Py.lit ":020000040001F9"; Py.lit ":00000001FF"] [(4, 0, [0; 1])] eq_refl)
    as (self' & Hload & Hnone).
  exists self'. split; [exact Hload|]. apply Hnone.
  constructor; [cbn; lia|constructor].
Defined.

Lemma load_loop_byte_cells (lines : list str) :
  forall ext first self,
    byte_cells (data self) ->
    byte_cells (data (load_loop lines ext first self).1).
Proof.
  induction lines as [|line rest IH]; intros ext first self Hd; [done|].
  destruct (Py.strip line) as [|c l] eqn:E.
  { rewrite load_loop_blank by done. by apply IH. }
  destruct (parse_line (Py.strip line)) as [[[t a] p]|e] eqn:Hp.
  - destruct (decide (t = 1)) as [->|Ht].
    + by rewrite (load_loop_eof _ _ _ _ _ a p).
    + rewrite (load_loop_record _ _ _ _ _ t a p) by done.
      pose proof (foldl_apply_record_byte_cells [(t, a, p)]) as Hstep.
      specialize (Hstep ltac:(constructor; [by eapply parse_line_bytes|constructor])
                        ext first self Hd).
      cbn [foldl] in Hstep.
      destruct (apply_record _ _) as [[ext' first'] self']. by apply IH.
  - rewrite (load_loop_raise _ _ _ _ _ e); [done| |done]. by rewrite E.
Qed.

(** X5: loading keeps the cells bytes.  If every cell of the object
    holds a value in [0, 255] before [load_file], so does every cell
    after it, whether the load returns or raises part-way. *)
Theorem load_file_keeps_bytes (lines : list str) (self : IntelHexFile) :
  byte_cells (data self) -> byte_cells (data (load_file lines self).1).
Proof.
  intros Hd. pose proof (load_loop_byte_cells lines 0 None self Hd) as H.
  unfold load_file, mbind, method_bind.
  destruct (load_loop lines 0 None self) as [self1 [first|e]]; [|done].
  unfold get_self. cbn [fst] in H. by destruct (start_address self1).
Qed.

Lemma load_file_keeps_bytes_witness :
  byte_cells (data (load_file [Py.lit ":0100000011EE"; Py.lit "junk"] init).1).
Proof.
  apply load_file_keeps_bytes. intros a v H.
  cbn [init data] in H. by rewrite lookup_empty in H.
Defined.

(** ** More on reads and writes *)

Lemma read_memory_ints (a n : Z) (self : IntelHexFile) :
  read_memory (Int a) (Int n) self
  = (self, Ok (concat ((fun i => Py.format_X 2 (default 0xFF (data self !! (a + i))))
                       <$> seqZ 0 n))).
Proof. reflexivity. Qed.

(** X6: reads compose.  Reading [m + n] bytes from [a] gives the bytes
    read from [a], [m] of them, followed by the [n] bytes read from
    [a + m]; a length that is zero or negative reads nothing. *)
Theorem read_memory_concat (a m n : Z) (self : IntelHexFile) :
  (0 <= m -> 0 <= n ->
   exists out1 out2,
     read_memory (Int a) (Int m) self = (self, Ok out1)
     /\ read_memory (Int (a + m)) (Int n) self = (self, Ok out2)
     /\ read_memory (Int a) (Int (m + n)) self = (self, Ok (out1 ++ out2)))
  /\ (n <= 0 -> read_memory (Int a) (Int n) self = (self, Ok [])).
Proof.
  split.
  - intros Hm Hn. rewrite !read_memory_ints. eexists _, _.
    split; [reflexivity|]. split; [reflexivity|].
    rewrite seqZ_app by done. rewrite fmap_app, concat_app.
    assert (seqZ (0 + m) n = Z.add m <$> seqZ 0 n) as ->.
    { rewrite fmap_add_seqZ. f_equal. lia. }
    rewrite <- list_fmap_compose. do 4 f_equal.
    apply list_fmap_ext. intros _ i _. cbn. do 3 f_equal. lia.
  - intros Hn. rewrite read_memory_ints.
    replace (seqZ 0 n) with (@nil Z); [done|].
    unfold seqZ. by replace (Z.to_nat n) with 0%nat by lia.
Qed.

Lemma read_memory_concat_witness :
  exists out1 out2,
    read_memory (Int 0) (Int 1) {| data := {[1 := 0xAB]}; start_address := None |}
    = ({| data := {[1 := 0xAB]}; start_address := None |}, Ok out1)
    /\ read_memory (Int (0 + 1)) (Int 2) {| data := {[1 := 0xAB]}; start_address := None |}
       = ({| data := {[1 := 0xAB]}; start_address := None |}, Ok out2)
    /\ read_memory (Int 0) (Int (1 + 2)) {| data := {[1 := 0xAB]}; start_address := None |}
       = ({| data := {[1 := 0xAB]}; start_address := None |}, Ok (out1 ++ out2)).
Proof.
  apply (proj1 (read_memory_concat 0 1 2
                  {| data := {[1 := 0xAB]}; start_address := None |})); lia.
Defined.

Lemma mapM_outcome_length {A B} (f : A -> outcome B) (l : list A) :
  forall k, mapM f l = Ok k -> length k = length l.
Proof.
  induction l as [|x l IH]; intros k Hk; cbn [mapM] in Hk.
  - by injection Hk as <-.
  - destruct (f x) as [y|e]; [|done]. cbn in Hk.
    destruct (mapM f l) as [k'|e]; [|done]. cbn in Hk.
    injection Hk as <-. cbn [length]. f_equal. by apply IH.
Qed.

Lemma length_drop_while {A} (p : A -> bool) (l : list A) :
  (length (Py.drop_while p l) <= length l)%nat.
Proof.
  induction l as [|x l IH]; cbn; [lia|]. destruct (p x); cbn; lia.
Qed.

(** A write that returns has stored one value per pair of characters of
    the digit string, from the address on, and nothing else. *)
Lemma write_memory_ok (address : HexLike) (value : pyval)
    (self self' : IntelHexFile) :
  write_memory address value self = (self', Ok tt) ->
  exists a hex_str bs,
    to_int address = Ok a
    /\ match value with
       | PInt n => hex_str = Py.format_X 0 n
       | PStr s => hex_str = Py.upper (Py.lstrip_chars (Py.lit "0x") s)
       | POther => False
       end
    /\ Z.of_nat (length bs) = (Z.of_nat (length hex_str) + 1) / 2
    /\ self' = {| data := write_bytes a bs (data self);
                  start_address := start_address self |}.
Proof.
  unfold write_memory, mbind, method_bind, lift, raise.
  destruct (to_int address) as [a|e]; [|done].
  destruct value as [s|n|]; cbn [mret method_ret]; [| |done].
  all: destruct (mapM _ _) as [bs|e] eqn:Hm; [|done].
  all: rewrite store_bytes_write, Z.add_0_r; intros [= <-].
  all: eexists a, _, bs; split; [done|]; split; [reflexivity|]; split; [|done].
  all: apply mapM_outcome_length in Hm; rewrite Hm; unfold Py.range3.
  all: rewrite length_fmap, length_seqZ, Z2Nat.id by (apply Z.div_pos; lia).
  all: f_equal; lia.
Qed.

(** X7: a write that returns touches neither the entry point nor any
    cell below its address; when the value is a string of [n] ASCII
    characters, it touches no cell from the address plus [(n + 1) / 2]
    on either.  ([str.upper] can lengthen a string that is not ASCII.) *)
Theorem write_memory_frame (address : HexLike) (value : pyval) (a : Z)
    (self self' : IntelHexFile) :
  to_int address = Ok a ->
  write_memory address value self = (self', Ok tt) ->
  start_address self' = start_address self
  /\ (forall k, k < a -> data self' !! k = data self !! k)
  /\ (forall s k, value = PStr s ->
                  Forall (fun c => Py.code c < 128) s ->
                  a + (Z.of_nat (length s) + 1) / 2 <= k ->
                  data self' !! k = data self !! k).
Proof.
  intros Ha Hw.
  destruct (write_memory_ok _ _ _ _ Hw) as (a' & hex_str & bs & Ha' & Hv & Hlen & ->).
  rewrite Ha in Ha'. injection Ha' as <-. cbn [data start_address].
  split; [done|]. split.
  - intros k Hk. rewrite lookup_write_bytes, bool_decide_eq_false_2; [done|lia].
  - intros s k -> _ Hk. rewrite lookup_write_bytes, bool_decide_eq_false_2; [done|].
    subst hex_str. unfold Py.upper, Py.lstrip_chars in Hlen. rewrite length_map in Hlen.
    pose proof (length_drop_while
                  (fun c => existsb (Ascii.eqb c) (Py.lit "0x")) s) as Hle.
    assert ((Z.of_nat (length (Py.drop_while
               (fun c => existsb (Ascii.eqb c) (Py.lit "0x")) s)) + 1) / 2
            <= (Z.of_nat (length s) + 1) / 2)
      by (apply Z.div_le_mono; lia).
    lia.
Qed.

(** [write_memory('10', '0xABCD')] on the empty image: six ASCII
    characters, so nothing below 16 and nothing from 19 on is
    written. *)
Lemma write_memory_frame_witness :
  let self' := (write_memory (Str (Py.lit "10")) (PStr (Py.lit "0xABCD")) init).1 in
  start_address self' = None
  /\ data self' !! 15 = None
  /\ data self' !! 19 = None.
Proof.
  destruct (write_memory_frame (Str (Py.lit "10")) (PStr (Py.lit "0xABCD")) 16 init
              (write_memory (Str (Py.lit "10")) (PStr (Py.lit "0xABCD")) init).1
              eq_refl eq_refl) as (Hstart & Hlow & Hhigh).
  split; [exact Hstart|]. split.
  - rewrite (Hlow 15) by lia. reflexivity.
  - rewrite (Hhigh (Py.lit "0xABCD") 19 eq_refl).
    + reflexivity.
    + repeat first [apply Forall_nil_2 | apply Forall_cons_2; [by vm_compute|]].
    + by vm_compute.
Defined.

Lemma write_memory_digits (address : Z) (pre rest : str) (bs : list Z)
    (self : IntelHexFile) :
  Forall (fun c => c = "0"%char \/ c = "x"%char) pre ->
  Forall hex_digit rest -> head rest <> Some "0"%char ->
  Py.fromhex rest = Some bs ->
  write_memory (Int address) (PStr (pre ++ rest)) self
  = ({| data := write_bytes address bs (data self);
        start_address := start_address self |}, Ok tt).
Proof.
  intros Hpre Hrest Hhead Hbs.
  unfold write_memory, mbind, method_bind, lift. cbn [to_int mret method_ret].
  rewrite lstrip_chars_0x by done.
  pose proof (fromhex_digits_length bs rest Hrest Hbs) as Hlen.
  unfold Py.range3, Py.upper. rewrite length_map, Hlen.
  replace ((Z.of_nat (2 * length bs) - 0 + 2 - 1) / 2) with (Z.of_nat (length bs))
    by (Z.div_mod_to_equations; lia).
  pose proof (write_chunks bs [] (map Py.upper_char rest) 0
                (Forall_hex_digit_upper rest Hrest)) as Hchunks.
  cbn [app] in Hchunks. rewrite Hchunks; [|rewrite <- Hbs; by apply fromhex_upper|done].
  by rewrite store_bytes_write, Z.add_0_r.
Qed.

Lemma read_written_bytes (a : Z) (bs : list Z) (d : gmap Z Z) :
  (fun i => default 0xFF (write_bytes a bs d !! (a + i))) <$> seqZ 0 (Z.of_nat (length bs))
  = bs.
Proof.
  apply list_eq. intros i. rewrite list_lookup_fmap.
  destruct (bs !! i) as [b|] eqn:Hb.
  - pose proof (lookup_lt_Some _ _ _ Hb) as Hi.
    rewrite lookup_seqZ_lt by lia. cbn.
    rewrite lookup_write_bytes, bool_decide_eq_true_2 by lia.
    replace (Z.to_nat (a + (0 + Z.of_nat i) - a)) with i by lia. by rewrite Hb.
  - pose proof (lookup_ge_None_1 _ _ Hb) as Hi.
    rewrite lookup_seqZ_ge; [done|lia].
Qed.

(** X8: what is written is read back.  For bytes whose first has a
    non-zero high digit, writing their upper-case digits, with or
    without leading ['0'] and ['x'] characters, and then reading as many
    bytes from the same address returns those digits. *)
Theorem write_then_read (a : Z) (pre : str) (bs : list Z) (self : IntelHexFile) :
  Forall (fun c => c = "0"%char \/ c = "x"%char) pre ->
  bytes bs ->
  match bs with b :: _ => 16 <= b | [] => True end ->
  exists self',
    write_memory (Int a) (PStr (pre ++ concat (Py.format_X 2 <$> bs))) self
    = (self', Ok tt)
    /\ read_memory (Int a) (Int (Z.of_nat (length bs))) self'
       = (self', Ok (concat (Py.format_X 2 <$> bs))).
Proof.
  intros Hpre Hbs Hhead. eexists. split.
  - apply write_memory_digits; [done| | |by apply fromhex_format].
    + eapply Forall_impl; [by apply Forall_upper_hex_bytes|].
      apply upper_hex_digit_hex_digit.
    + destruct Hbs as [|b bs Hb Hbs]; [done|].
      rewrite fmap_cons. cbn [concat]. rewrite format_02X by done. cbn.
      intros [= H]. apply (f_equal Py.digit_value) in H.
      rewrite digit_value_hexchar in H; [|Z.div_mod_to_equations; lia].
      change (Py.digit_value "0") with (Some 0) in H. injection H as H.
      Z.div_mod_to_equations. lia.
  - rewrite read_memory_ints. cbn [data]. do 3 f_equal.
    etrans; [|apply (f_equal (fmap (Py.format_X 2))
                       (read_written_bytes a bs (data self)))].
    by rewrite <- list_fmap_compose.
Qed.

Lemma write_then_read_witness :
  exists self',
    write_memory (Int 16) (PStr (Py.lit "0x" ++ concat (Py.format_X 2 <$> [0xAB; 0x01])))
      init = (self', Ok tt)
    /\ read_memory (Int 16) (Int (Z.of_nat (length [0xAB; 0x01]))) self'
       = (self', Ok (concat (Py.format_X 2 <$> [0xAB; 0x01]))).
Proof.
  apply (write_then_read 16 (Py.lit "0x") [0xAB; 0x01] init).
  - repeat first [apply Forall_nil_2 | apply Forall_cons_2; [auto|]].
  - repeat first [apply Forall_nil_2 | apply Forall_cons_2; [lia|]].
  - lia.
Defined.

(** ** More on [save_file] *)

Lemma sorted_keys_nil (d : gmap Z Z) :
  Py.sorted (map_to_list d).*1 = [] <-> d = ∅.
Proof.
  unfold Py.sorted. split.
  - intros E. pose proof (merge_sort_Permutation Z.le (map_to_list d).*1) as Hperm.
    rewrite E in Hperm. apply Permutation_nil_l in Hperm. symmetry in Hperm.
    by apply fmap_nil_inv, map_to_list_empty_iff in Hperm.
  - intros ->. by rewrite map_to_list_empty.
Qed.

(** X9: [save_file] never changes the object, and it raises, with
    [IndexError], exactly when the image has no cell; on any other image
    it returns the lines. *)
Theorem save_file_empty_image (self : IntelHexFile) :
  (save_file self).1 = self
  /\ ((save_file self).2 = Raise IndexError <-> data self = ∅)
  /\ (data self <> ∅ -> exists out, (save_file self).2 = Ok out).
Proof.
  unfold save_file, mbind, method_bind, get_self, raise.
  cbn [mret method_ret].
  destruct (Py.sorted (map_to_list (data self)).*1) as [|lo rest] eqn:E; cbn [fst snd].
  - apply sorted_keys_nil in E. split; [done|]. split; [done|]. done.
  - assert (data self <> ∅) as Hne.
    { intros H%sorted_keys_nil. by rewrite H in E. }
    split; [done|]. split; [split; [done|by intros ?]|]. by eexists.
Qed.

Lemma save_chunks_decode (d : gmap Z Z) (bases : list Z) :
  byte_cells d ->
  forall cur,
    Forall (fun l => exists t a p,
                parse_line (Py.strip l) = Ok (t, a, p)
                /\ ((t = 0 /\ length p = 32%nat)
                    \/ (t = 4 /\ a = 0 /\ length p = 2%nat)))
           (save_chunks d bases cur).
Proof.
  intros Hd. induction bases as [|base bases IH]; intros cur; [constructor|].
  rewrite save_chunks_cons. apply Forall_app. split; [|apply Forall_cons; split].
  - case_bool_decide; constructor; [|constructor].
    eexists 4, 0, _. rewrite strip_encode_record. split.
    + apply parse_line_encode; [lia|lia| |cbn; lia].
      assert (0 <= Z.land (base ≫ 16) 65535 < 65536)
        by (rewrite land_65535; apply Z.mod_pos_bound; lia).
      repeat constructor; Z.div_mod_to_equations; lia.
    + by right.
  - eexists 0, _, _. rewrite strip_encode_record. split.
    + apply parse_line_encode; [lia| |by apply bytes_chunk|rewrite length_chunk; lia].
      rewrite land_65535. apply Z.mod_pos_bound. lia.
    + left. split; [done|apply length_chunk].
  - apply IH.
Qed.

(** X10: what [save_file] writes, its own parser reads.  For an image
    of bytes, at whatever addresses, the lines written are Extended
    Linear Address records with two payload bytes and Data records with
    32, each of which [parse_line] accepts, then one End-Of-File record;
    and [load_file] on these lines returns. *)
Theorem save_file_lines_decode (self : IntelHexFile) (out : list str) :
  byte_cells (data self) ->
  save_file self = (self, Ok out) ->
  (exists body,
     out = body ++ [Py.lit ":00000001FF" ++ [newline]]
     /\ Forall (fun l => exists t a p,
                  parse_line (Py.strip l) = Ok (t, a, p)
                  /\ ((t = 0 /\ length p = 32%nat)
                      \/ (t = 4 /\ a = 0 /\ length p = 2%nat)))
               body)
  /\ (load_file out init).2 = Ok tt.
Proof.
  intros Hd Hsave. unfold save_file, mbind, method_bind, get_self, raise in Hsave.
  cbn [mret method_ret] in Hsave.
  destruct (Py.sorted (map_to_list (data self)).*1) as [|lo rest]; [done|].
  injection Hsave as <-.
  pose proof (save_chunks_decode (data self)
                (Py.range3 lo (List.last (lo :: rest) lo + 1) 32) Hd None) as Hbody.
  split; [eexists; split; [reflexivity|exact Hbody]|].
  destruct (load_loop_prefix
              (save_chunks (data self)
                 (Py.range3 lo (List.last (lo :: rest) lo + 1) 32) None))
    with (ext := 0) (first := @None Z) (self := init)
    as (ext' & first' & self' & Hrun).
  { eapply Forall_impl; [exact Hbody|]. cbn.
    intros l (t & a & p & Hp & Ht). right. exists t, a, p. split; [done|]. lia. }
  unfold load_file, mbind, method_bind.
  rewrite Hrun, (load_loop_eof _ _ _ _ _ 0 []) by apply parse_eof_line.
  unfold get_self. by destruct (start_address self').
Qed.

Lemma save_file_lines_decode_witness :
  (exists body,
     match (save_file {| data := {[-5 := 0x11]}; start_address := None |}).2 with
     | Ok out => out
     | Raise _ => []
     end = body ++ [Py.lit ":00000001FF" ++ [newline]]
     /\ Forall (fun l => exists t a p,
                  parse_line (Py.strip l) = Ok (t, a, p)
                  /\ ((t = 0 /\ length p = 32%nat)
                      \/ (t = 4 /\ a = 0 /\ length p = 2%nat)))
               body)
  /\ (load_file
        match (save_file {| data := {[-5 := 0x11]}; start_address := None |}).2 with
        | Ok out => out
        | Raise _ => []
        end init).2 = Ok tt.
Proof.
  apply (save_file_lines_decode {| data := {[-5 := 0x11]}; start_address := None |}).
  - intros k v Hk. cbn [data] in Hk. apply lookup_singleton_Some in Hk as [_ <-]. lia.
  - reflexivity.
Defined.

Lemma save_chunks_ext (d d' : gmap Z Z) (bases : list Z) :
  (forall a, default 0xFF (d' !! a) = default 0xFF (d !! a)) ->
  forall cur, save_chunks d' bases cur = save_chunks d bases cur.
Proof.
  intros Hread. induction bases as [|base bases IH]; intros cur; [done|].
  rewrite !save_chunks_cons, IH.
  assert (chunk d' base = chunk d base) as ->; [|done].
  unfold chunk. apply list_fmap_ext. intros _ i _. apply Hread.
Qed.

(** X11: the first round trip reaches a fixed point.  For an image of
    bytes within the 32-bit address space, saving, loading the lines
    into a fresh image and saving that image writes the same lines
    again. *)
Theorem save_file_stable (self : IntelHexFile) :
  byte_cells (data self) ->
  data self <> ∅ ->
  (forall a, is_Some (data self !! a) -> 0 <= a < 2 ^ 32) ->
  exists (out : list str) (self' : IntelHexFile),
    save_file self = (self, Ok out)
    /\ load_file out init = (self', Ok tt)
    /\ save_file self' = (self', Ok out).
Proof.
  intros Hbytes Hne Hrange.
  destruct (save_then_load self Hbytes Hne Hrange)
    as (out & lo & hi & Hsave & Hlo & Hhi & Hbounds & Hreload).
  assert (lo <= hi) as Hle by (by apply Hbounds).
  exists out. eexists. split; [done|]. split; [exact Hreload|].
  set (n := (hi - lo) / 32 + 1).
  assert (0 < n) as Hn by (assert (0 <= (hi - lo) / 32) by (apply Z.div_pos; lia); lia).
  set (d' := write_chunks_at (data self) (Py.range3 lo (hi + 1) 32) ∅).
  assert (forall a, d' !! a = if bool_decide (lo <= a < lo + 32 * n)
                              then Some (default 255 (data self !! a)) else None)
    as Hlookup.
  { intros a. unfold d'. rewrite lookup_write_chunks_at, lookup_empty.
    by rewrite (bool_decide_ext _ _ (Exists_range3 lo hi a Hle)). }
  assert (forall a, is_Some (d' !! a) <-> lo <= a < lo + 32 * n) as Hdom.
  { intros a. rewrite Hlookup. case_bool_decide; [split; [done|by eexists]|].
    split; [by intros [? ?]|done]. }
  assert (forall a, default 255 (d' !! a) = default 255 (data self !! a)) as Hread.
  { intros a. rewrite Hlookup. case_bool_decide as Ha; [done|].
    destruct (data self !! a) eqn:E; [|done]. exfalso. apply Ha.
    assert (lo <= a <= hi) by (apply Hbounds; by rewrite E).
    unfold n. Z.div_mod_to_equations. lia. }
  assert (d' <> ∅) as Hne'.
  { intros E. assert (is_Some (d' !! lo)) as [v Hv] by (apply Hdom; lia).
    by rewrite E, lookup_empty in Hv. }
  destruct (sorted_keys_bounds d' Hne')
    as (lo' & hi' & rest & Hsorted & Hlast & Hlo' & Hhi' & Hbounds').
  assert (lo' = lo) as ->.
  { apply Hdom in Hlo'. assert (lo' <= lo <= hi') by (apply Hbounds', Hdom; lia). lia. }
  assert (hi' = lo + 32 * n - 1) as ->.
  { apply Hdom in Hhi'.
    assert (lo <= lo + 32 * n - 1 <= hi') by (apply Hbounds', Hdom; lia). lia. }
  unfold save_file, mbind, method_bind, get_self in Hsave |- *.
  cbn [mret method_ret data] in Hsave |- *. fold d'. rewrite Hsorted, Hlast.
  destruct (sorted_keys_bounds (data self) Hne)
    as (lo0 & hi0 & rest0 & Hsorted0 & Hlast0 & Hlo0 & Hhi0 & Hbounds0).
  rewrite Hsorted0, Hlast0 in Hsave. injection Hsave as <-.
  assert (lo0 = lo) as ->.
  { assert (lo0 <= lo <= hi0) by by apply Hbounds0.
    assert (lo <= lo0 <= hi) by by apply Hbounds. lia. }
  assert (hi0 = hi) as ->.
  { assert (lo <= hi <= hi0) by by apply Hbounds0.
    assert (lo <= hi0 <= hi) by by apply Hbounds. lia. }
  rewrite (save_chunks_ext (data self) d') by done.
  assert (Py.range3 lo (lo + 32 * n - 1 + 1) 32 = Py.range3 lo (hi + 1) 32) as ->.
  { unfold Py.range3. do 2 f_equal. unfold n. Z.div_mod_to_equations. lia. }
  done.
Qed.

Lemma save_file_stable_witness :
  exists (out : list str) (self' : IntelHexFile),
    save_file {| data := {[5 := 0x11]}; start_address := None |}
    = ({| data := {[5 := 0x11]}; start_address := None |}, Ok out)
    /\ load_file out init = (self', Ok tt)
    /\ save_file self' = (self', Ok out).
Proof.
  apply (save_file_stable {| data := {[5 := 0x11]}; start_address := None |}).
  - intros k v Hk. cbn [data] in Hk. apply lookup_singleton_Some in Hk as [_ <-]. lia.
  - cbn [data]. apply insert_non_empty.
  - cbn [data]. intros a [v [<- _]%lookup_singleton_Some]. lia.
Defined.

(** ** The editor *)

Lemma foldl_max_spec (l : list Z) :
  forall a, let m := foldl Z.max a l in
            (m = a \/ m ∈ l) /\ a <= m /\ Forall (fun x => x <= m) l.
Proof.
  induction l as [|x l IH]; intros a; cbn [foldl].
  - split; [by left|]. split; [lia|constructor].
  - destruct (IH (Z.max a x)) as (Hin & Hle & Hall). cbn zeta in *.
    remember (foldl Z.max (Z.max a x) l) as m.
    split; [|split; [lia|constructor; [lia|done]]].
    destruct Hin as [Hin|Hin]; [|right; by right].
    destruct (Z.max_spec a x) as [[_ E]|[_ E]].
    + right. apply elem_of_cons. left. lia.
    + left. lia.
Qed.

Lemma foldl_min_spec (l : list Z) :
  forall a, let m := foldl Z.min a l in
            (m = a \/ m ∈ l) /\ m <= a /\ Forall (fun x => m <= x) l.
Proof.
  induction l as [|x l IH]; intros a; cbn [foldl].
  - split; [by left|]. split; [lia|constructor].
  - destruct (IH (Z.min a x)) as (Hin & Hle & Hall). cbn zeta in *.
    remember (foldl Z.min (Z.min a x) l) as m.
    split; [|split; [lia|constructor; [lia|done]]].
    destruct Hin as [Hin|Hin]; [|right; by right].
    destruct (Z.min_spec a x) as [[_ E]|[_ E]].
    + left. lia.
    + right. apply elem_of_cons. left. lia.
Qed.

(** X12: the property [length] is 0 for an image without cells, and
    otherwise the span from the lowest populated address to the highest,
    both included: every populated address lies in it, and the image
    has at most that many cells. *)
Theorem HexEditor_length_span (self : HexEditor) :
  (data (parser self) = ∅ -> HexEditor_length self = 0)
  /\ (data (parser self) <> ∅ ->
      exists lo hi,
        is_Some (data (parser self) !! lo) /\ is_Some (data (parser self) !! hi)
        /\ (forall a, is_Some (data (parser self) !! a) -> lo <= a <= hi)
        /\ HexEditor_length self = hi - lo + 1
        /\ Z.of_nat (size (data (parser self))) <= HexEditor_length self).
Proof.
  unfold HexEditor_length. set (d := data (parser self)). split.
  - intros ->. by rewrite map_to_list_empty.
  - intros Hne.
    pose proof (elem_of_keys d) as Hkeys.
    destruct ((map_to_list d).*1) as [|a0 keys] eqn:E.
    { apply fmap_nil_inv, map_to_list_empty_iff in E. done. }
    destruct (foldl_max_spec keys a0) as (Hmax_in & Hmax_a & Hmax_all).
    destruct (foldl_min_spec keys a0) as (Hmin_in & Hmin_a & Hmin_all).
    cbn zeta in *.
    set (hi := foldl Z.max a0 keys) in *. set (lo := foldl Z.min a0 keys) in *.
    assert (forall a, is_Some (d !! a) -> lo <= a <= hi) as Hbounds.
    { intros a Ha%Hkeys. rewrite Forall_forall in Hmax_all, Hmin_all.
      apply elem_of_cons in Ha as [->|Ha]; [lia|].
      split; [by apply Hmin_all|by apply Hmax_all]. }
    exists lo, hi. split; [|split; [|split; [done|split; [done|]]]].
    + apply Hkeys. destruct Hmin_in as [->|?]; [by left|by right].
    + apply Hkeys. destruct Hmax_in as [->|?]; [by left|by right].
    + rewrite <- size_dom.
      assert (dom d ⊆ list_to_set (C := gset Z) (seqZ lo (hi - lo + 1))) as Hsub.
      { intros a Ha%elem_of_dom%Hbounds. apply elem_of_list_to_set, elem_of_seqZ. lia. }
      apply subseteq_size in Hsub.
      rewrite size_list_to_set, length_seqZ in Hsub by apply NoDup_seqZ. lia.
Qed.

Lemma HexEditor_length_span_witness :
  exists lo hi,
    lo = 3 /\ hi = 10
    /\ HexEditor_length
         {| file := "a.hex"; parser := {| data := {[3 := 1; 10 := 2]};
                                          start_address := None |} |}
       = hi - lo + 1.
Proof.
  destruct (proj2 (HexEditor_length_span
                     {| file := "a.hex"; parser := {| data := {[3 := 1; 10 := 2]};
                                                      start_address := None |} |}))
    as (lo & hi & Hlo & Hhi & Hbounds & Hlen & _).
  { cbn [parser data]. apply insert_non_empty. }
  cbn [parser data] in Hlo, Hhi, Hbounds.
  assert (forall a, is_Some (({[3 := 1; 10 := 2]} : gmap Z Z) !! a) <-> a = 3 \/ a = 10)
    as Hdom.
  { intros a. rewrite lookup_insert_is_Some, lookup_singleton_is_Some.
    destruct (decide (3 = a)); intuition lia. }
  apply Hdom in Hlo, Hhi.
  pose proof (Hbounds 3 ltac:(apply Hdom; lia)).
  pose proof (Hbounds 10 ltac:(apply Hdom; lia)).
  exists lo, hi. split; [lia|]. split; [lia|]. exact Hlen.
Defined.

Lemma int16_0x_digits (ds : str) :
  ds <> [] -> Forall hex_digit ds ->
  Py.int16 ("0"%char :: "x"%char :: ds) = Some (hex_value ds).
Proof.
  intros Hne Hds. destruct ds as [|c r]; [done|].
  pose proof (Forall_inv Hds) as Hc.
  unfold Py.int16. cbn [Py.drop_while].
  change (Py.int_space "0") with false. cbv iota.
  change (Ascii.eqb "0" "+") with false. change (Ascii.eqb "0" "-") with false.
  cbv iota.
  change (Ascii.eqb "0" "0" && (Ascii.eqb "x" "x" || Ascii.eqb "x" "X")) with true.
  cbv iota. rewrite (hex_digit_not c Hc "_") by reflexivity. cbv iota.
  rewrite ?(hex_digit_not c Hc "_") by reflexivity.
  rewrite (scan_digits_all _ Hds). cbn [length Nat.add Nat.ltb Nat.leb forallb andb].
  unfold hex_value. f_equal. lia.
Qed.

(** X13: the property [start_address] raises when the image has no
    entry point.  For an entry point in [0, 2^32) it is ["0x"] followed
    by eight upper-case hexadecimal digits, and the string is accepted
    where the methods take an address, with the entry point as its
    value. *)
Theorem HexEditor_start_address_display (self : HexEditor) :
  (start_address (parser self) = None ->
   HexEditor_start_address self = Fail FormatTypeError)
  /\ (forall e,
        start_address (parser self) = Some e -> 0 <= e < 2 ^ 32 ->
        exists digits,
          HexEditor_start_address self = Return (Py.lit "0x" ++ digits)
          /\ length digits = 8%nat
          /\ Forall upper_hex_digit digits
          /\ to_int (Str (Py.lit "0x" ++ digits)) = Ok e).
Proof.
  unfold HexEditor_start_address. split; [by intros ->|].
  intros e -> He. exists (fixed_hex 8 e).
  assert (0 <= e < 16 ^ Z.of_nat 8) as He' by (by change (16 ^ Z.of_nat 8) with (2 ^ 32)).
  rewrite format_X_fixed by (done || lia).
  split; [done|]. split; [apply length_fixed_hex|]. split; [apply Forall_fixed_hex|].
  cbn [to_int]. change (Py.lit "0x" ++ fixed_hex 8 e)
    with ("0"%char :: "x"%char :: fixed_hex 8 e).
  rewrite int16_0x_digits.
  - by rewrite hex_value_fixed.
  - intros E. pose proof (length_fixed_hex 8 e) as L. by rewrite E in L.
  - eapply Forall_impl; [apply Forall_fixed_hex|]. apply upper_hex_digit_hex_digit.
Qed.

Lemma HexEditor_start_address_display_witness :
  exists digits,
    HexEditor_start_address
      {| file := "a.hex"; parser := {| data := ∅; start_address := Some 0x803000A0 |} |}
    = Return (Py.lit "0x" ++ digits)
    /\ length digits = 8%nat
    /\ Forall upper_hex_digit digits
    /\ to_int (Str (Py.lit "0x" ++ digits)) = Ok 0x803000A0.
Proof.
  apply (proj2 (HexEditor_start_address_display
                  {| file := "a.hex";
                     parser := {| data := ∅; start_address := Some 0x803000A0 |} |}));
    [reflexivity|lia].
Defined.

Lemma save_file_ok (self s : IntelHexFile) (out : list str) :
  save_file self = (s, Ok out) -> s = self /\ data self <> ∅.
Proof.
  unfold save_file, mbind, method_bind, get_self, raise. cbn [mret method_ret].
  destruct (Py.sorted (map_to_list (data self)).*1) as [|lo rest] eqn:E; [done|].
  intros [= <- _]. split; [done|]. intros H%sorted_keys_nil. by rewrite H in E.
Qed.

Lemma save_file_raise (self : IntelHexFile) :
  data self = ∅ -> save_file self = (self, Raise IndexError).
Proof.
  intros H%sorted_keys_nil.
  unfold save_file, mbind, method_bind, get_self, raise. by rewrite H.
Qed.

Lemma write_memory_raise (address : HexLike) (value : pyval) (self : IntelHexFile)
    (e : exn) :
  (write_memory address value self).2 = Raise e ->
  write_memory address value self = (self, Raise e).
Proof.
  unfold write_memory, mbind, method_bind, lift, raise.
  destruct (to_int address) as [a|e1]; [|by intros [= ->]].
  destruct value as [s|n|]; cbn [mret method_ret]; [| |by intros [= ->]].
  all: destruct (mapM _ _) as [bs|e2]; [by rewrite store_bytes_write|by intros [= ->]].
Qed.

Lemma write_memory_to_int (address : HexLike) (a : Z) (value : pyval)
    (self : IntelHexFile) :
  to_int address = Ok a ->
  write_memory address value self = write_memory (Int a) value self.
Proof. intros H. unfold write_memory, mbind, method_bind, lift. by rewrite H. Qed.

(** The reloaded cells read as the saved ones. *)
Lemma reloaded_reads (d : gmap Z Z) (lo hi : Z) :
  (forall a, is_Some (d !! a) -> lo <= a <= hi) -> lo <= hi ->
  forall a,
    default 0xFF (write_chunks_at d (Py.range3 lo (hi + 1) 32) ∅ !! a)
    = default 0xFF (d !! a).
Proof.
  intros Hbounds Hle a. rewrite lookup_write_chunks_at, lookup_empty.
  rewrite (bool_decide_ext _ _ (Exists_range3 lo hi a Hle)).
  case_bool_decide as Ha; [done|].
  destruct (d !! a) eqn:E; [|done]. exfalso. apply Ha.
  assert (lo <= a <= hi) by (apply Hbounds; by rewrite E).
  Z.div_mod_to_equations. lia.
Qed.

(** X14: a write that returns is on disk.  After [write] returns, on an
    image of bytes within the 32-bit address space, an editor opened on
    the file written, [output] or else the editor's own file, reads at
    every address and length what the writing editor reads. *)
Theorem HexEditor_write_persists (fs fs' : files) (self self' : HexEditor)
    (address : HexLike) (value : pyval) (output : option string) :
  HexEditor_write fs self address value output = (fs', self', Return tt) ->
  byte_cells (data (parser self')) ->
  (forall a, is_Some (data (parser self') !! a) -> 0 <= a < 2 ^ 32) ->
  exists reopened,
    HexEditor_post_init fs' (match output with Some o => o | None => file self end)
    = Return reopened
    /\ forall a n,
         (HexEditor_read reopened (Int a) (Int n)).2
         = (HexEditor_read self' (Int a) (Int n)).2.
Proof.
  unfold HexEditor_write, save_path. intros Hw Hbytes Hrange.
  destruct (write_memory address value (parser self)) as [p [[]|e]]; [|done].
  destruct (save_file p) as [p' [out|e]] eqn:Hsave; [|done].
  injection Hw as <- <-. cbn [parser] in Hbytes, Hrange.
  destruct (save_file_ok _ _ _ Hsave) as [-> Hne].
  destruct (save_then_load p Hbytes Hne Hrange)
    as (out' & lo & hi & Hsave' & Hlo & Hhi & Hbounds & Hreload).
  rewrite Hsave in Hsave'. injection Hsave' as <-.
  eexists. split.
  - unfold HexEditor_post_init, load_path. rewrite lookup_insert_eq, Hreload.
    reflexivity.
  - intros a n. unfold HexEditor_read. rewrite !read_memory_ints. cbn [snd parser data].
    do 2 f_equal. apply list_fmap_ext. intros _ i _. cbn. f_equal.
    apply reloaded_reads; [done|by apply Hbounds].
Qed.

Lemma HexEditor_write_persists_witness :
  exists reopened,
    HexEditor_post_init
      (HexEditor_write ∅ {| file := "a.hex"; parser := init |}
         (Str (Py.lit "0x10")) (PStr (Py.lit "AB")) None).1.1
      "a.hex"
    = Return reopened
    /\ forall a n,
         (HexEditor_read reopened (Int a) (Int n)).2
         = (HexEditor_read
              (HexEditor_write ∅ {| file := "a.hex"; parser := init |}
                 (Str (Py.lit "0x10")) (PStr (Py.lit "AB")) None).1.2
              (Int a) (Int n)).2.
Proof.
  apply (HexEditor_write_persists ∅ _ {| file := "a.hex"; parser := init |} _
           (Str (Py.lit "0x10")) (PStr (Py.lit "AB")) None).
  - reflexivity.
  - intros k v Hk. vm_compute in Hk.
    change (({[16 := 171]} : gmap Z Z) !! k = Some v) in Hk.
    apply lookup_singleton_Some in Hk as [_ <-]. lia.
  - intros k [v Hk]. vm_compute in Hk.
    change (({[16 := 171]} : gmap Z Z) !! k = Some v) in Hk.
    apply lookup_singleton_Some in Hk as [<- _]. lia.
Defined.

(** X15: a write that fails in [write_memory] does nothing: no file is
    touched, the editor is as before, and the error is the one
    [write_memory] raised. *)
Theorem HexEditor_write_fails_clean (fs : files) (self : HexEditor)
    (address : HexLike) (value : pyval) (output : option string) (e : exn) :
  (write_memory address value (parser self)).2 = Raise e ->
  HexEditor_write fs self address value output = (fs, self, Fail (ParserError e)).
Proof.
  intros H%write_memory_raise. unfold HexEditor_write. rewrite H. by destruct self.
Qed.

Lemma HexEditor_write_fails_clean_witness :
  HexEditor_write {["a.hex" := [Py.lit ":00000001FF"]]}
    {| file := "a.hex"; parser := init |} (Int 0) POther None
  = ({["a.hex" := [Py.lit ":00000001FF"]]},
     {| file := "a.hex"; parser := init |}, Fail (ParserError DataTypeError)).
Proof. by apply HexEditor_write_fails_clean. Defined.

(** X16: writing nothing into an image without cells empties the file.
    When the image has no cell and the value is a string of ['0'] and
    ['x'] characters only, which writes no byte, [write] still opens
    the target file for writing, raises the [IndexError] of [save_file],
    and leaves that file without a line. *)
Theorem HexEditor_write_empties_file (fs : files) (self : HexEditor)
    (address : HexLike) (a : Z) (s : str) (output : option string) :
  to_int address = Ok a ->
  data (parser self) = ∅ ->
  Forall (fun c => c = "0"%char \/ c = "x"%char) s ->
  HexEditor_write fs self address (PStr s) output
  = (<[match output with Some o => o | None => file self end := []]> fs,
     self, Fail (ParserError IndexError)).
Proof.
  intros Ha Hempty Hs. unfold HexEditor_write, save_path.
  rewrite (write_memory_to_int address a) by done.
  rewrite <- (app_nil_r s).
  rewrite (write_memory_digits a s [] []); [|done|constructor|done|done].
  cbn [write_bytes]. rewrite save_file_raise by done. by destruct self as [f [d st]].
Qed.

Lemma HexEditor_write_empties_file_witness :
  HexEditor_write {["a.hex" := [Py.lit ":0400000500000010E7"; Py.lit ":00000001FF"]]}
    {| file := "a.hex"; parser := {| data := ∅; start_address := Some 16 |} |}
    (Int 0) (PStr (Py.lit "0x00")) None
  = (<["a.hex" := []]>
       {["a.hex" := [Py.lit ":0400000500000010E7"; Py.lit ":00000001FF"]]},
     {| file := "a.hex"; parser := {| data := ∅; start_address := Some 16 |} |},
     Fail (ParserError IndexError)).
Proof.
  apply (HexEditor_write_empties_file
           {["a.hex" := [Py.lit ":0400000500000010E7"; Py.lit ":00000001FF"]]}
           {| file := "a.hex"; parser := {| data := ∅; start_address := Some 16 |} |}
           (Int 0) 0 (Py.lit "0x00") None); [done|done|].
  repeat first [apply Forall_nil_2 | apply Forall_cons_2; [auto|]].
Defined.

(** ** Corruption and deletion *)

Lemma sum_app (l k : list Z) : Py.sum (l ++ k) = Py.sum l + Py.sum k.
Proof.
  unfold Py.sum. rewrite foldl_app. generalize (foldl Z.add 0 l). intros s.
  revert s. induction k as [|x k IH]; intros s; cbn [foldl]; [lia|].
  rewrite IH, (IH (0 + x)). lia.
Qed.

(** X17: the checksum catches any change of one payload byte.  When a
    record's line carries the checksum of the record but one payload
    byte has been replaced by a different byte, [parse_line] raises the
    checksum error, whatever the record type. *)
Theorem checksum_detects_payload_change (type address b b' : Z) (p1 p2 : list Z) :
  0 <= type < 256 -> 0 <= address < 65536 ->
  bytes (p1 ++ b :: p2) -> 0 <= b' < 256 -> b' <> b ->
  (length (p1 ++ b :: p2) < 256)%nat ->
  let count := Z.of_nat (length (p1 ++ b :: p2)) in
  let sent := record_checksum count address type (p1 ++ b :: p2) in
  parse_line (Py.lit ":" ++ Py.format_X 2 count ++ Py.format_X 4 address
              ++ Py.format_X 2 type ++ concat (Py.format_X 2 <$> (p1 ++ b' :: p2))
              ++ Py.format_X 2 sent)
  = Raise (ChecksumMismatch sent
             (record_checksum count address type (p1 ++ b' :: p2))).
Proof.
  intros Ht Ha Hp Hb' Hne Hlen count sent.
  assert (bytes (p1 ++ b' :: p2)) as Hp'.
  { unfold bytes in *. rewrite Forall_app, Forall_cons in Hp |- *. tauto. }
  assert (length (p1 ++ b' :: p2) = length (p1 ++ b :: p2)) as Hsame
    by (by rewrite !length_app).
  assert (0 <= sent < 256) as Hsent by apply record_checksum_range.
  assert (0 <= count < 256) as Hcount by (unfold count; lia).
  assert (forall n, 0 <= n < 256 -> length (Py.format_X 2 n) = 2%nat) as L2.
  { intros n Hn. rewrite format_X_fixed by (done || lia). apply length_fixed_hex. }
  assert (forall n, 0 <= n < 256 -> Py.int16 (Py.format_X 2 n) = Some n) as I2.
  { intros n Hn. apply int16_format_X; [lia|]. by change (16 ^ Z.of_nat 2) with 256. }
  unfold parse_line.
  assert (parse_fields
            (Py.lit ":" ++ Py.format_X 2 count ++ Py.format_X 4 address
             ++ Py.format_X 2 type ++ concat (Py.format_X 2 <$> (p1 ++ b' :: p2))
             ++ Py.format_X 2 sent)
          = Ok (count, address, type, p1 ++ b' :: p2, sent)) as ->.
  { apply parse_fields_fields; auto.
    - rewrite format_X_fixed by (done || lia). apply length_fixed_hex.
    - rewrite length_hex_bytes by done. unfold count. lia.
    - apply int16_format_X; [lia|]. by change (16 ^ Z.of_nat 4) with 65536.
    - by apply fromhex_format. }
  cbn [mbind outcome_bind]. rewrite computed_checksum_spec.
  destruct (Z.eqb_spec (record_checksum count address type (p1 ++ b' :: p2)) sent)
    as [E|E]; [|done].
  exfalso. unfold sent, record_checksum in E.
  rewrite !sum_app in E. unfold Py.sum in E. cbn [foldl] in E.
  assert (foldl Z.add (0 + b') p2 = b' + foldl Z.add 0 p2) as E1.
  { pose proof (sum_app [b'] p2) as H. unfold Py.sum in H. cbn [foldl app] in H. lia. }
  assert (foldl Z.add (0 + b) p2 = b + foldl Z.add 0 p2) as E2.
  { pose proof (sum_app [b] p2) as H. unfold Py.sum in H. cbn [foldl app] in H. lia. }
  rewrite E1, E2 in E.
  assert (0 <= b < 256).
  { unfold bytes in Hp. rewrite Forall_app, Forall_cons in Hp. tauto. }
  revert E. generalize (foldl Z.add 0 p1) (foldl Z.add 0 p2). intros s1 s2 E.
  Z.div_mod_to_equations. lia.
Qed.

Lemma checksum_detects_payload_change_witness :
  parse_line (Py.lit ":" ++ Py.format_X 2 2 ++ Py.format_X 4 0x0010
              ++ Py.format_X 2 0 ++ concat (Py.format_X 2 <$> ([0xAA] ++ 0xBC :: []))
              ++ Py.format_X 2 (record_checksum 2 0x0010 0 ([0xAA] ++ 0xBB :: [])))
  = Raise (ChecksumMismatch (record_checksum 2 0x0010 0 ([0xAA] ++ 0xBB :: []))
             (record_checksum 2 0x0010 0 ([0xAA] ++ 0xBC :: []))).
Proof.
  apply (checksum_detects_payload_change 0 0x0010 0xBB 0xBC [0xAA] []);
    try lia; [|cbn; lia].
  repeat first [apply Forall_nil_2 | apply Forall_cons_2; [lia|]].
Defined.

Lemma write_bytes_keeps (bs : list Z) :
  forall a d k, is_Some (d !! k) -> is_Some (write_bytes a bs d !! k).
Proof.
  induction bs as [|b bs IH]; intros a d k Hk; [done|].
  cbn [write_bytes]. apply IH. rewrite lookup_insert_is_Some.
  destruct (decide (a = k)); [by left|by right].
Qed.

Lemma load_loop_keeps_cells (lines : list str) :
  forall ext first self k,
    is_Some (data self !! k) ->
    is_Some (data (load_loop lines ext first self).1 !! k).
Proof.
  induction lines as [|line rest IH]; intros ext first self k Hk; [done|].
  destruct (Py.strip line) as [|c l] eqn:E.
  { rewrite load_loop_blank by done. by apply IH. }
  destruct (parse_line (Py.strip line)) as [[[t a] p]|e] eqn:Hp.
  - destruct (decide (t = 1)) as [->|Ht].
    + by rewrite (load_loop_eof _ _ _ _ _ a p).
    + rewrite (load_loop_record _ _ _ _ _ t a p) by done.
      cbn [apply_record].
      destruct (t =? 0); [apply IH; by apply write_bytes_keeps|].
      destruct (t =? 4); [by apply IH|]. destruct (t =? 5); by apply IH.
  - rewrite (load_loop_raise _ _ _ _ _ e); [done| |done]. by rewrite E.
Qed.

(** X18: no cell is ever removed.  An address populated before
    [load_file] or [write_memory] is populated after it, whether the
    method returns or raises. *)
Theorem cells_are_never_removed (self : IntelHexFile) (k : Z) :
  is_Some (data self !! k) ->
  (forall lines, is_Some (data (load_file lines self).1 !! k))
  /\ (forall address value, is_Some (data (write_memory address value self).1 !! k)).
Proof.
  intros Hk. split.
  - intros lines. pose proof (load_loop_keeps_cells lines 0 None self k Hk) as H.
    unfold load_file, mbind, method_bind.
    destruct (load_loop lines 0 None self) as [self1 [first|e]]; [|done].
    unfold get_self. cbn [fst] in H. by destruct (start_address self1).
  - intros address value.
    destruct (write_memory address value self) as [self' [[]|e]] eqn:Hw.
    + destruct (write_memory_ok _ _ _ _ Hw) as (a & hex_str & bs & _ & _ & _ & ->).
      cbn [fst data]. by apply write_bytes_keeps.
    + pose proof (write_memory_raise address value self e) as H.
      rewrite Hw in H. specialize (H eq_refl). by injection H as ->.
Qed.

Lemma cells_are_never_removed_witness :
  (forall lines,
     is_Some (data (load_file lines {| data := {[7 := 1]}; start_address := None |}).1
              !! 7))
  /\ (forall address value,
        is_Some (data (write_memory address value
                         {| data := {[7 := 1]}; start_address := None |}).1 !! 7)).
Proof.
  apply (cells_are_never_removed {| data := {[7 := 1]}; start_address := None |} 7).
  cbn [data]. rewrite lookup_singleton_eq. by eexists.
Defined.

(** ** The lines of a saved file, counted *)

Lemma count_prefix_app (p : str) (l k : list str) :
  count_prefix p (l ++ k) = (count_prefix p l + count_prefix p k)%nat.
Proof. unfold count_prefix. by rewrite List.filter_app, length_app. Qed.

Lemma ext_line_prefix (h l : Z) :
  Py.startswith (encode_record 4 0 [h; l] ++ [newline]) (Py.lit ":02000004") = true
  /\ Py.startswith (encode_record 4 0 [h; l] ++ [newline]) (Py.lit ":20") = false.
Proof. split; reflexivity. Qed.

Lemma data_line_prefix (d : gmap Z Z) (base address : Z) :
  Py.startswith (encode_record 0 address (chunk d base) ++ [newline])
    (Py.lit ":02000004") = false
  /\ Py.startswith (encode_record 0 address (chunk d base) ++ [newline])
       (Py.lit ":20") = true.
Proof. unfold encode_record. rewrite length_chunk. split; reflexivity. Qed.

(** The chunk bases from [b] on, [n] of them. *)
Lemma bases_succ (b : Z) (n : nat) :
  (fun k => b + 32 * k) <$> seqZ 0 (Z.of_nat (S n))
  = b :: ((fun k => (b + 32) + 32 * k) <$> seqZ 0 (Z.of_nat n)).
Proof.
  rewrite Nat2Z.inj_succ, seqZ_cons by lia. rewrite fmap_cons. f_equal; [lia|].
  replace (Z.pred (Z.succ (Z.of_nat n))) with (Z.of_nat n) by lia.
  replace (Z.succ 0) with (1 + 0) by lia.
  rewrite <- fmap_add_seqZ, <- list_fmap_compose.
  apply list_fmap_ext. intros _ k _. cbn. lia.
Qed.

Lemma save_chunks_counts (d : gmap Z Z) (n : nat) :
  forall (b c : Z),
    c <= b ≫ 16 <= c + 1 ->
    let out := save_chunks d ((fun k => b + 32 * k) <$> seqZ 0 (Z.of_nat (S n))) (Some c) in
    Z.of_nat (count_prefix (Py.lit ":02000004") out)
    = ((b + 32 * Z.of_nat n) ≫ 16) - c
    /\ count_prefix (Py.lit ":20") out = S n
    /\ length out
       = (count_prefix (Py.lit ":02000004") out + count_prefix (Py.lit ":20") out)%nat.
Proof.
  induction n as [|n IH]; intros b c Hc out; subst out.
  - change (seqZ 0 (Z.of_nat 1)) with [0]. cbn [fmap list_fmap].
    rewrite save_chunks_cons. cbn [save_chunks]. rewrite app_nil_r.
    rewrite !count_prefix_app, length_app. unfold count_prefix at 2 4 6 8.
    cbn [List.filter].
    destruct (data_line_prefix d (b + 32 * 0) (Z.land (b + 32 * 0) 65535)) as [-> ->].
    replace (b + 32 * 0) with b by lia. replace (b + 32 * Z.of_nat 0) with b by lia.
    case_bool_decide as E.
    + injection E as E. cbn. repeat split; lia.
    + unfold count_prefix. cbn [List.filter].
      destruct (ext_line_prefix (Z.land (b ≫ 16) 65535 / 256)
                  (Z.land (b ≫ 16) 65535 mod 256)) as [-> ->].
      cbn. assert (b ≫ 16 <> c) by congruence. repeat split; lia.
  - rewrite bases_succ, save_chunks_cons.
    assert (b ≫ 16 <= (b + 32) ≫ 16 <= b ≫ 16 + 1) as Hstep.
    { rewrite !shiftr_16. Z.div_mod_to_equations. lia. }
    destruct (IH (b + 32) (b ≫ 16) Hstep) as (IH1 & IH2 & IH3).
    cbn zeta in IH1, IH2, IH3.
    rewrite !count_prefix_app, !length_app, IH3, IH2.
    unfold count_prefix at 2 5 8 11. cbn [List.filter].
    destruct (data_line_prefix d b (Z.land b 65535)) as [-> ->].
    rewrite !Nat2Z.inj_add, IH1.
    replace (b + 32 + 32 * Z.of_nat n) with (b + 32 * Z.of_nat (S n)) by lia.
    case_bool_decide as E.
    + injection E as E. cbn. repeat split; lia.
    + unfold count_prefix. cbn [List.filter].
      destruct (ext_line_prefix (Z.land (b ≫ 16) 65535 / 256)
                  (Z.land (b ≫ 16) 65535 mod 256)) as [-> ->].
      cbn. assert (b ≫ 16 <> c) by congruence. repeat split; lia.
Qed.

Lemma save_chunks_first (d : gmap Z Z) (b : Z) (rest : list Z) :
  save_chunks d (b :: rest) None = save_chunks d (b :: rest) (Some (b ≫ 16 - 1)).
Proof.
  rewrite !save_chunks_cons.
  rewrite !bool_decide_eq_false_2; [done| |done]. intros [= H]. lia.
Qed.

(** X19: the lines of a saved file, counted.  With [lo] and [hi] the
    lowest and highest populated address, [save_file] writes one Data
    record of 32 bytes per chunk base from [lo] up to [hi], one Extended
    Linear Address record for the first base and one more each time the
    upper 16 bits of the base change, and the End-Of-File record;
    nothing else. *)
Theorem save_file_line_counts (self : IntelHexFile) :
  data self <> ∅ ->
  exists (out : list str) (lo hi : Z),
    save_file self = (self, Ok out)
    /\ is_Some (data self !! lo) /\ is_Some (data self !! hi)
    /\ (forall a, is_Some (data self !! a) -> lo <= a <= hi)
    /\ Z.of_nat (count_prefix (Py.lit ":20") out) = (hi - lo) / 32 + 1
    /\ Z.of_nat (count_prefix (Py.lit ":02000004") out)
       = ((lo + 32 * ((hi - lo) / 32)) ≫ 16) - (lo ≫ 16) + 1
    /\ length out
       = (count_prefix (Py.lit ":02000004") out + count_prefix (Py.lit ":20") out
          + 1)%nat.
Proof.
  intros Hne.
  destruct (sorted_keys_bounds (data self) Hne)
    as (lo & hi & rest & Hsorted & Hlast & Hlo & Hhi & Hbounds).
  assert (lo <= hi) as Hle by (by apply Hbounds).
  assert (0 <= (hi - lo) / 32) as Hn by (apply Z.div_pos; lia).
  eexists _, lo, hi. split.
  { unfold save_file, mbind, method_bind, get_self. rewrite Hsorted, Hlast.
    reflexivity. }
  split; [done|]. split; [done|]. split; [done|].
  assert (Py.range3 lo (hi + 1) 32
          = (fun k => lo + 32 * k) <$> seqZ 0 (Z.of_nat (S (Z.to_nat ((hi - lo) / 32)))))
    as ->.
  { unfold Py.range3. do 2 f_equal. rewrite Nat2Z.inj_succ, Z2Nat.id by done.
    Z.div_mod_to_equations. lia. }
  destruct (save_chunks_counts (data self) (Z.to_nat ((hi - lo) / 32)) lo (lo ≫ 16 - 1))
    as (H1 & H2 & H3); [lia|]. cbn zeta in H1, H2, H3.
  rewrite bases_succ, save_chunks_first, <- bases_succ.
  rewrite !count_prefix_app, length_app, H3, H2.
  change (count_prefix (Py.lit ":20") [Py.lit ":00000001FF" ++ [newline]]) with 0%nat.
  change (count_prefix (Py.lit ":02000004") [Py.lit ":00000001FF" ++ [newline]])
    with 0%nat.
  cbn [length]. rewrite !Nat.add_0_r, H1, Z2Nat.id by done.
  split; [lia|]. split; [lia|]. lia.
Qed.

Lemma save_file_line_counts_witness :
  exists (out : list str) (lo hi : Z),
    save_file {| data := {[0xFFF0 := 1; 0x1000F := 2]}; start_address := None |}
    = ({| data := {[0xFFF0 := 1; 0x1000F := 2]}; start_address := None |}, Ok out)
    /\ lo = 0xFFF0 /\ hi = 0x1000F
    /\ count_prefix (Py.lit ":20") out = 1%nat
    /\ count_prefix (Py.lit ":02000004") out = 1%nat
    /\ length out = 3%nat.
Proof.
  destruct (save_file_line_counts
              {| data := {[0xFFF0 := 1; 0x1000F := 2]}; start_address := None |})
    as (out & lo & hi & Hsave & Hlo & Hhi & Hbounds & Hdata & Hext & Hlen).
  { cbn [data]. apply insert_non_empty. }
  cbn [data] in Hlo, Hhi, Hbounds.
  assert (forall a, is_Some (({[0xFFF0 := 1; 0x1000F := 2]} : gmap Z Z) !! a)
                    <-> a = 0xFFF0 \/ a = 0x1000F) as Hdom.
  { intros a. rewrite lookup_insert_is_Some, lookup_singleton_is_Some.
    destruct (decide (0xFFF0 = a)); intuition lia. }
  apply Hdom in Hlo, Hhi.
  pose proof (Hbounds 0xFFF0 ltac:(apply Hdom; lia)).
  pose proof (Hbounds 0x1000F ltac:(apply Hdom; lia)).
  assert (lo = 0xFFF0) as -> by lia. assert (hi = 0x1000F) as -> by lia.
  exists out, 0xFFF0, 0x1000F. split; [exact Hsave|]. split; [done|]. split; [done|].
  change ((0x1000F - 0xFFF0) / 32 + 1) with 1 in Hdata.
  change ((0xFFF0 + 32 * ((0x1000F - 0xFFF0) / 32)) ≫ 16 - 0xFFF0 ≫ 16 + 1) with 1 in Hext.
  split; [lia|]. split; [lia|]. lia.
Defined.
